(** * hypersync-quickstart: the streaming-decode-join pipeline

    A shallow embedding of [src/mode_transfers.js].  The file holds two
    scripts: the MODE transfer tracker (single-amount rows, lines 1-188)
    and the Velodrome CL mint/burn tracker (dual-amount rows, two
    sequential passes, lines 188-411).

    The scripts are JavaScript, so the records they receive are dynamically
    typed.  Property values are modelled by [jsval]; the operations the
    scripts apply to them (truthiness, [||], [===], [.slice], [.startsWith],
    template literals, [BigInt(...)]) are written out with the exceptions
    they raise.  The file system is a trace of [fs] calls, the remote
    stream is the script of answers [stream.recv()] gives. *)

From Stdlib Require Import ZArith NArith List Bool Lia.
From Stdlib Require Import Strings.Ascii Strings.String Strings.Byte.
From Stdlib Require Import Numbers.DecimalString Numbers.DecimalPos.
Import ListNotations.

Open Scope string_scope.

#[local] Set Warnings "-register-all".

(** ** JavaScript values and exceptions *)

Module JS.

(** The values a property of a record can hold.  Strings are sequences of
    code units below 256; [JNum] holds an integral Number (block numbers,
    timestamps), printed in plain decimal digits as JavaScript does below
    10^21.  A property that is absent reads as [JUndefined]. *)
Inductive jsval : Type :=
| JUndefined
| JNull
| JBool (b : bool)
| JNum (z : Z)
| JStr (s : string)
| JArr (l : list jsval).

Inductive error : Type :=
| TypeError
| SyntaxError.

(** The outcome of an expression that may throw. *)
Inductive result (A : Type) : Type :=
| Ok (a : A)
| Throw (e : error).

Arguments Ok {A} a.
Arguments Throw {A} e.

Definition bind {A B} (r : result A) (k : A -> result B) : result B :=
  match r with
  | Ok a => k a
  | Throw e => Throw e
  end.

Definition threw {A} (r : result A) : bool :=
  match r with
  | Ok _ => false
  | Throw _ => true
  end.

(** [try { r } catch (e) { fallback }] *)
Definition try_catch {A} (r : result A) (fallback : A) : A :=
  match r with
  | Ok a => a
  | Throw _ => fallback
  end.

Declare Scope js_scope.
Delimit Scope js_scope with js.
Notation "x <- c ;; k" := (bind c (fun x => k))
  (at level 61, c at next level, right associativity) : js_scope.

(** ToBoolean *)
Definition truthy (v : jsval) : bool :=
  match v with
  | JUndefined | JNull => false
  | JBool b => b
  | JNum z => negb (z =? 0)%Z
  | JStr s => negb (s =? "")
  | JArr _ => true
  end.

(** [v || ""] *)
Definition or_empty (v : jsval) : jsval :=
  if truthy v then v else JStr "".

(** [a === b].  Two arrays are the same only when they are the same
    object; arrays read from different records never are. *)
Definition strict_eq (a b : jsval) : bool :=
  match a, b with
  | JUndefined, JUndefined => true
  | JNull, JNull => true
  | JBool x, JBool y => Bool.eqb x y
  | JNum x, JNum y => (x =? y)%Z
  | JStr x, JStr y => (x =? y)
  | _, _ => false
  end.

(** An integer in decimal digits, with its sign: what [toString] gives
    for a BigInt of any size, and for an integral Number below 10^21 in
    magnitude (above, JavaScript switches to exponent form, which is not
    modelled). *)
Definition Z_toString (z : Z) : string :=
  NilEmpty.string_of_int (Z.to_int z).

(** ToString, as a template literal applies it.  An array is joined with
    commas, [undefined] and [null] elements giving the empty string. *)
Fixpoint ToString (v : jsval) : string :=
  match v with
  | JUndefined => "undefined"
  | JNull => "null"
  | JBool true => "true"
  | JBool false => "false"
  | JNum z => Z_toString z
  | JStr s => s
  | JArr l =>
      (fix join (l : list jsval) : string :=
         match l with
         | [] => ""
         | x :: rest =>
             let sx := match x with
                       | JUndefined | JNull => ""
                       | _ => ToString x
                       end in
             match rest with
             | [] => sx
             | _ :: _ => sx ++ "," ++ join rest
             end
         end) l
  end.

(** The last [n] elements: [xs.slice(-n)]. *)
Definition slice_last {A} (n : nat) (l : list A) : list A :=
  skipn (List.length l - n) l.

(** [xs.slice(a, b)] for [0 <= a <= b]. *)
Definition slice_range {A} (a b : nat) (l : list A) : list A :=
  firstn (b - a) (skipn a l).

Definition str_slice_last (n : nat) (s : string) : string :=
  string_of_list_ascii (slice_last n (list_ascii_of_string s)).

Definition str_slice_from (a : nat) (s : string) : string :=
  string_of_list_ascii (skipn a (list_ascii_of_string s)).

Definition str_slice_range (a b : nat) (s : string) : string :=
  string_of_list_ascii (slice_range a b (list_ascii_of_string s)).

(** [v.slice(-40)]: strings and arrays have the method; reading it off
    [undefined] or [null], or calling it on a boolean or a number, is a
    TypeError. *)
Definition slice_neg40 (v : jsval) : result jsval :=
  match v with
  | JStr s => Ok (JStr (str_slice_last 40 s))
  | JArr l => Ok (JArr (slice_last 40 l))
  | _ => Throw TypeError
  end.

Definition isArray (v : jsval) : bool :=
  match v with
  | JArr _ => true
  | _ => false
  end.

(** [v.length > i] for an array [v]. *)
Definition length_gt (v : jsval) (i : nat) : bool :=
  match v with
  | JArr l => (i <? List.length l)%nat
  | _ => false
  end.

(** [v[i]] for an array [v]. *)
Definition index (v : jsval) (i : nat) : jsval :=
  match v with
  | JArr l => nth i l JUndefined
  | _ => JUndefined
  end.

End JS.

(** ** BigInt(string) *)

Module BigIntParse.

Import JS.

Definition code (c : ascii) : N := N_of_ascii c.

Definition in_range (lo hi : ascii) (c : ascii) : bool :=
  (code lo <=? code c)%N && (code c <=? code hi)%N.

(** The value of a digit character, letters in either case. *)
Definition digit_val (c : ascii) : option N :=
  if in_range "0" "9" c then Some (code c - code "0")%N
  else if in_range "a" "f" c then Some (code c - code "a" + 10)%N
  else if in_range "A" "F" c then Some (code c - code "A" + 10)%N
  else None.

Definition is_digit (radix : N) (c : ascii) : bool :=
  match digit_val c with
  | Some d => (d <? radix)%N
  | None => false
  end.

Definition is_hex_digit : ascii -> bool := is_digit 16.

Fixpoint digits_acc (radix : N) (acc : N) (l : list ascii) : option N :=
  match l with
  | [] => Some acc
  | c :: rest =>
      match digit_val c with
      | Some d =>
          if (d <? radix)%N then digits_acc radix (acc * radix + d)%N rest
          else None
      | None => None
      end
  end.

(** One or more digits of the radix. *)
Definition parse_digits (radix : N) (l : list ascii) : option N :=
  match l with
  | [] => None
  | _ :: _ => digits_acc radix 0 l
  end.

(** StrWhiteSpaceChar, for code units below 256: TAB, LF, VT, FF, CR, SP
    and NBSP. *)
Definition is_white (c : ascii) : bool :=
  let n := code c in
  ((9 <=? n) && (n <=? 13) || (n =? 32) || (n =? 160))%N.

Fixpoint drop_white (l : list ascii) : list ascii :=
  match l with
  | [] => []
  | c :: rest => if is_white c then drop_white rest else l
  end.

Definition trim (l : list ascii) : list ascii :=
  rev (drop_white (rev (drop_white l))).

Definition of_option (o : option N) : result Z :=
  match o with
  | Some n => Ok (Z.of_N n)
  | None => Throw SyntaxError
  end.

Definition is_char (a b : ascii) : bool := Ascii.eqb a b.

(** StringToBigInt: surrounding white space is dropped; the empty string
    is 0; a [0x], [0o] or [0b] prefix selects the radix and takes no
    sign; otherwise an optionally signed decimal.  Anything else is a
    SyntaxError. *)
Definition BigInt (s : string) : result Z :=
  match trim (list_ascii_of_string s) with
  | [] => Ok 0%Z
  | c0 :: rest =>
      match rest with
      | c1 :: ds =>
          if is_char c0 "0" && (is_char c1 "x" || is_char c1 "X")
          then of_option (parse_digits 16 ds)
          else if is_char c0 "0" && (is_char c1 "o" || is_char c1 "O")
          then of_option (parse_digits 8 ds)
          else if is_char c0 "0" && (is_char c1 "b" || is_char c1 "B")
          then of_option (parse_digits 2 ds)
          else if is_char c0 "+" then of_option (parse_digits 10 rest)
          else if is_char c0 "-"
          then bind (of_option (parse_digits 10 rest)) (fun z => Ok (- z)%Z)
          else of_option (parse_digits 10 (c0 :: rest))
      | [] => of_option (parse_digits 10 [c0])
      end
  end.

(** [n.toString()] of a BigInt. *)
Definition toString (z : Z) : string := Z_toString z.

End BigIntParse.

(** ** Records delivered by the stream *)

Module Hypersync.

Import JS.

(** A log as the loops read it.  Every property is dynamically typed and
    may be absent ([JUndefined]). *)
Record Log : Type := {
  blockNumber : jsval;
  transactionHash : jsval;
  topic0 : jsval;
  topic1 : jsval;
  topic2 : jsval;
  topics : jsval;
  data : jsval
}.

Record Block : Type := {
  number : jsval;
  timestamp : jsval
}.

(** [res.data]: [logs] and [blocks] are arrays when present. *)
Record ResponseData : Type := {
  logs : option (list Log);
  blocks : option (list Block)
}.

(** A batch.  [nextBlock] is a Number; 0 is the falsy one. *)
Record Response : Type := {
  res_data : option ResponseData;
  nextBlock : Z
}.

(** What one [await stream.recv()] does: resolve to a batch, resolve to
    [null], or reject. *)
Inductive recv : Type :=
| RecvRes (res : Response)
| RecvNull
| RecvReject.

(** [res.data && res.data.logs] *)
Definition res_logs (res : Response) : option (list Log) :=
  match res_data res with
  | Some d => logs d
  | None => None
  end.

(** [res.data.blocks], read where [res.data] is known to be there. *)
Definition res_blocks (res : Response) : option (list Block) :=
  match res_data res with
  | Some d => blocks d
  | None => None
  end.

End Hypersync.

(** ** The file system *)

Module Fs.

Inductive call : Type :=
| writeFileSync (file : string) (contents : string)
| appendFileSync (file : string) (contents : string).

(** The calls of a run, oldest first.  A call is taken to succeed. *)
Definition trace := list call.

(** What [file] holds after the calls, [None] while it does not exist. *)
Definition apply (file : string) (now : option string) (c : call)
  : option string :=
  match c with
  | writeFileSync f s => if f =? file then Some s else now
  | appendFileSync f s =>
      if f =? file
      then Some (match now with Some old => old ++ s | None => s end)
      else now
  end.

Definition contents (file : string) (tr : trace) : option string :=
  fold_left (apply file) tr None.

Definition is_write (c : call) : bool :=
  match c with
  | writeFileSync _ _ => true
  | appendFileSync _ _ => false
  end.

End Fs.

(** ** What the two loops share

    Lines 104-136 and 298-329 are the same code up to the name of the
    first address variable ([fromAddress], [senderAddress]). *)

Module PerLog.

Import JS Hypersync.
Local Open Scope js_scope.

(** [res.data.blocks?.find(b => b.number === blockNumber)] *)
Definition find_block (bs : option (list Block)) (blockNumber : jsval)
  : option Block :=
  match bs with
  | Some l => List.find (fun b => strict_eq (number b) blockNumber) l
  | None => None
  end.

(** [blockData?.timestamp || ""] *)
Definition timestamp_of (blockData : option Block) : jsval :=
  or_empty (match blockData with
            | Some b => timestamp b
            | None => JUndefined
            end).

(** [if (slot) addr = `0x${slot.slice(-40)}`] *)
Definition named_slot (slot : jsval) (addr : string) : result string :=
  if truthy slot
  then s <- slice_neg40 slot ;; Ok ("0x" ++ ToString s)
  else Ok addr.

(** [if (addr === "unknown" && tps && Array.isArray(tps) && tps.length > i)
       addr = `0x${tps[i].slice(-40)}`] *)
Definition array_slot (tps : jsval) (i : nat) (addr : string)
  : result string :=
  if (addr =? "unknown") && truthy tps && isArray tps && length_gt tps i
  then s <- slice_neg40 (index tps i) ;; Ok ("0x" ++ ToString s)
  else Ok addr.

(** Lines 113-131: both addresses, in the order the statements run. *)
Definition extract_addresses (log : Log) : result (string * string) :=
  fromAddress <- named_slot (topic1 log) "unknown" ;;
  toAddress <- named_slot (topic2 log) "unknown" ;;
  fromAddress <- array_slot (topics log) 1 fromAddress ;;
  toAddress <- array_slot (topics log) 2 toAddress ;;
  Ok (fromAddress, toAddress).

(** [const cleanData = data.startsWith('0x') ? data.slice(2) : data].
    Only strings have [startsWith]; calling it on another value is a
    TypeError. *)
Definition cleanData (data : jsval) : result string :=
  match data with
  | JStr s => Ok (if String.prefix "0x" s then str_slice_from 2 s else s)
  | _ => Throw TypeError
  end.

Definition newline : string := String (ascii_of_nat 10) "".

(** Fields joined by commas, closed by a line feed. *)
Fixpoint csv_line (fields : list string) : string :=
  match fields with
  | [] => newline
  | [f] => f ++ newline
  | f :: rest => f ++ "," ++ csv_line rest
  end.

End PerLog.

(** ** The polling loop

    Lines 76-175 and 271-377.  The loops differ in how a log becomes a
    line of the file; [decode] is that part, [file] the file appended to.
    Console output and the [firstLogPrinted] flag that only guards it are
    left out. *)

Module Pipeline.

Import JS Hypersync.

Record RunState : Type := {
  fs : Fs.trace;
  fromBlock : Z;      (* query.fromBlock *)
  totalEvents : nat
}.

Inductive outcome : Type :=
| Completed      (* recv gave null, the loop was left by break *)
| Fatal          (* recv rejected, main().catch ran *)
| Awaiting.      (* the stream has not answered yet *)

(** The status the process ends with, when it ends. *)
Definition exit_status (o : outcome) : option Z :=
  match o with
  | Completed => Some 0%Z
  | Fatal => Some 1%Z
  | Awaiting => None
  end.

Section Loop.

Variable file : string.
Variable decode : option (list Block) -> Log -> result string.

(** The body of [for (const log of res.data.logs)]: a line is appended
    when the try block gets to its end, nothing is when it throws. *)
Definition process_log (bs : option (list Block)) (tr : Fs.trace) (log : Log)
  : Fs.trace :=
  match decode bs log with
  | Ok csvRow => (tr ++ [Fs.appendFileSync file csvRow])%list
  | Throw _ => tr
  end.

Definition process_logs (bs : option (list Block)) (ls : list Log)
  (tr : Fs.trace) : Fs.trace :=
  fold_left (process_log bs) ls tr.

(** One turn of [while (true)] on a batch. *)
Definition step (st : RunState) (res : Response) : RunState :=
  let st1 :=
    match res_logs res with
    | Some ls =>
        {| fs := process_logs (res_blocks res) ls (fs st);
           fromBlock := fromBlock st;
           totalEvents := totalEvents st + List.length ls |}
    | None => st
    end in
  if (nextBlock res =? 0)%Z then st1
  else {| fs := fs st1; fromBlock := nextBlock res;
          totalEvents := totalEvents st1 |}.

Fixpoint loop (script : list recv) (st : RunState) : outcome * RunState :=
  match script with
  | [] => (Awaiting, st)
  | RecvNull :: _ => (Completed, st)
  | RecvReject :: _ => (Fatal, st)
  | RecvRes res :: rest => loop rest (step st res)
  end.

End Loop.

End Pipeline.

(** ** The MODE transfer tracker (lines 1-188) *)

Module Transfers.

Import JS Hypersync PerLog Pipeline BigIntParse.
Local Open Scope js_scope.

Definition TOKEN_ADDRESS : string :=
  "0xDfc7C877a950e49D2610114102175A06C2e3167a".

Definition event_signatures : list string :=
  ["Transfer(address,address,uint256)"].

Definition CSV_FILENAME : string := "mode_transfers.csv".

Definition CSV_HEADERS : string :=
  "block_number,timestamp,tx_hash,from_address,to_address,amount" ++ newline.

(** The fields of one line, already converted to strings. *)
Record Row : Type := {
  row_blockNumber : string;
  row_timestamp : string;
  row_txHash : string;
  row_fromAddress : string;
  row_toAddress : string;
  row_amount : string
}.

(** Lines 115 and 139-149: the whole payload as one integer. *)
Definition amount_of (data : jsval) : string :=
  if truthy data
  then try_catch (clean <- cleanData data ;;
                  n <- BigInt ("0x" ++ clean) ;;
                  Ok (toString n))
                 "0"
  else "0".

(** Lines 106-152, the try block up to the row. *)
Definition decode_row (bs : option (list Block)) (log : Log) : result Row :=
  let blockNumber := or_empty (blockNumber log) in
  let blockData := find_block bs blockNumber in
  let timestamp := timestamp_of blockData in
  let txHash := or_empty (transactionHash log) in
  a <- extract_addresses log ;;
  let amount := amount_of (data log) in
  Ok {| row_blockNumber := ToString blockNumber;
        row_timestamp := ToString timestamp;
        row_txHash := ToString txHash;
        row_fromAddress := fst a;
        row_toAddress := snd a;
        row_amount := amount |}.

Definition csvRow (r : Row) : string :=
  csv_line [row_blockNumber r; row_timestamp r; row_txHash r;
            row_fromAddress r; row_toAddress r; row_amount r].

Definition decode (bs : option (list Block)) (log : Log) : result string :=
  r <- decode_row bs log ;; Ok (csvRow r).

(** The state the loop is entered with: the header written, the query at
    its first block, nothing counted. *)
Definition start : RunState :=
  {| fs := [Fs.writeFileSync CSV_FILENAME CSV_HEADERS];
     fromBlock := 11203124;
     totalEvents := 0 |}.

Definition main (script : list recv) : outcome * RunState :=
  loop CSV_FILENAME decode script start.

End Transfers.

(** ** The mint/burn tracker (lines 188-411) *)

Module MintBurn.

Import JS Hypersync PerLog Pipeline BigIntParse.
Local Open Scope js_scope.

Definition CONTRACT_ADDRESS : string :=
  "0xEC1D7b7058dF61ef9401DB56DbF195388b77EABa".

Definition MINT_EVENT_SIGNATURE : string :=
  "Mint(address,address,int24,int24,uint128,uint256,uint256)".

Definition BURN_EVENT_SIGNATURE : string :=
  "Burn(address,int24,int24,uint128,uint256,uint256)".

Definition CSV_FILENAME : string := "velo_cl_mint_burn_events.csv".

Definition CSV_HEADERS : string :=
  "block_number,timestamp,tx_hash,sender_address,to_address,amount0,amount1,event_type"
  ++ newline.

Record Row : Type := {
  row_blockNumber : string;
  row_timestamp : string;
  row_txHash : string;
  row_senderAddress : string;
  row_toAddress : string;
  row_amount0 : string;
  row_amount1 : string;
  row_eventType : string
}.

(** Lines 332-351: the first two 64-character words of the payload. *)
Definition amounts_of (data : jsval) : string * string :=
  if truthy data
  then try_catch
         (clean <- cleanData data ;;
          if (128 <=? String.length clean)%nat
          then amount0 <- BigInt ("0x" ++ str_slice_range 0 64 clean) ;;
               amount1 <- BigInt ("0x" ++ str_slice_range 64 128 clean) ;;
               Ok (toString amount0, toString amount1)
          else Ok ("0", "0"))
         ("0", "0")
  else ("0", "0").

(** Lines 300-354. *)
Definition decode_row (eventType : string) (bs : option (list Block))
  (log : Log) : result Row :=
  let blockNumber := or_empty (blockNumber log) in
  let blockData := find_block bs blockNumber in
  let timestamp := timestamp_of blockData in
  let txHash := or_empty (transactionHash log) in
  a <- extract_addresses log ;;
  let amounts := amounts_of (data log) in
  Ok {| row_blockNumber := ToString blockNumber;
        row_timestamp := ToString timestamp;
        row_txHash := ToString txHash;
        row_senderAddress := fst a;
        row_toAddress := snd a;
        row_amount0 := fst amounts;
        row_amount1 := snd amounts;
        row_eventType := eventType |}.

Definition csvRow (r : Row) : string :=
  csv_line [row_blockNumber r; row_timestamp r; row_txHash r;
            row_senderAddress r; row_toAddress r;
            row_amount0 r; row_amount1 r; row_eventType r].

Definition decode (eventType : string) (bs : option (list Block))
  (log : Log) : result string :=
  r <- decode_row eventType bs log ;; Ok (csvRow r).

(** [createQuery(topic0)] starts every pass at the same block. *)
Definition createQuery_fromBlock : Z := 11203124.

(** One pass over one event kind, on the file as the calls so far left
    it. *)
Definition processEvents (eventType : string) (script : list recv)
  (tr : Fs.trace) : outcome * RunState :=
  loop CSV_FILENAME (decode eventType) script
       {| fs := tr; fromBlock := createQuery_fromBlock; totalEvents := 0 |}.

(** What [main] leaves: how it ended, the file system calls made, and the
    events counted by the passes that ran. *)
Record MainResult : Type := {
  ended : outcome;
  calls : Fs.trace;
  mintEvents : nat;
  burnEvents : nat
}.

(** Lines 388-406: the header, the mint pass, then the burn pass once the
    mint pass has returned. *)
Definition main (mint_script burn_script : list recv) : MainResult :=
  let tr0 := [Fs.writeFileSync CSV_FILENAME CSV_HEADERS] in
  match processEvents "mint" mint_script tr0 with
  | (Completed, st1) =>
      match processEvents "burn" burn_script (fs st1) with
      | (o, st2) =>
          {| ended := o; calls := fs st2;
             mintEvents := totalEvents st1; burnEvents := totalEvents st2 |}
      end
  | (o, st1) =>
      {| ended := o; calls := fs st1;
         mintEvents := totalEvents st1; burnEvents := 0 |}
  end.

End MintBurn.

(** ** The vocabulary of the specification

    Notions the properties are stated with; none of them is used by the
    embedded code. *)

Module Spec.

Import JS Hypersync PerLog Pipeline BigIntParse.

(** *** Numbers and bytes *)

(** A digit sequence read most significant digit first. *)
Fixpoint be_value (base : N) (ds : list N) : N :=
  match ds with
  | [] => 0
  | d :: rest => d * base ^ N.of_nat (List.length rest) + be_value base rest
  end.

Definition digit_of (c : ascii) : N :=
  match digit_val c with
  | Some d => d
  | None => 0
  end.

Definition all_hex (s : string) : bool :=
  forallb is_hex_digit (list_ascii_of_string s).

(** The big-endian unsigned integer a string of hex digits writes. *)
Definition hex_value (s : string) : N :=
  be_value 16 (map digit_of (list_ascii_of_string s)).

(** A natural number in decimal digits. *)
Definition decimal (n : N) : string :=
  NilEmpty.string_of_uint (N.to_uint n).

Definition hex_char (n : N) : ascii :=
  if (n <? 10)%N then ascii_of_N (48 + n) else ascii_of_N (87 + n).

Definition hex_of_byte (b : byte) : list ascii :=
  let n := Byte.to_N b in [hex_char (n / 16); hex_char (n mod 16)].

Definition hex_of_bytes (bs : list byte) : string :=
  string_of_list_ascii (flat_map hex_of_byte bs).

(** The integer a byte sequence holds, most significant byte first. *)
Definition bytes_value (bs : list byte) : N :=
  be_value 256 (map Byte.to_N bs).

(** The [k] low-order bytes of a big-endian value are its last [k]. *)
Definition low_order (k : nat) (bs : list byte) : list byte :=
  skipn (List.length bs - k) bs.

(** A topic as the client hands it over, and the address held in its 20
    low-order bytes. *)
Definition topic_string (bs : list byte) : string :=
  "0x" ++ hex_of_bytes bs.

Definition address_string (bs : list byte) : string :=
  "0x" ++ hex_of_bytes (low_order 20 bs).

(** *** Where an address comes from

    [reads log i slot a]: the record offers, for topic [i] with named slot
    [slot], the address [a]: through the named slot, through the [topics]
    array when the named slot is missing, or through neither. *)
Inductive reads (log : Log) (i : nat) (slot : jsval) : string -> Prop :=
| reads_named (bs : list byte) :
    List.length bs = 32 ->
    slot = JStr (topic_string bs) ->
    reads log i slot (address_string bs)
| reads_array (bs : list byte) (l : list jsval) :
    List.length bs = 32 ->
    truthy slot = false ->
    topics log = JArr l ->
    nth_error l i = Some (JStr (topic_string bs)) ->
    reads log i slot (address_string bs)
| reads_neither :
    truthy slot = false ->
    length_gt (topics log) i = false ->
    reads log i slot "unknown".

(** *** Batches *)

Definition log_count (res : Response) : nat :=
  match res_logs res with
  | Some ls => List.length ls
  | None => 0
  end.

(** The log carries one of the accepted topic hashes. *)
Definition accepted_topic (accepted : list string) (log : Log) : bool :=
  existsb (fun h => strict_eq (topic0 log) (JStr h)) accepted.

Definition matching_count (accepted : list string) (res : Response) : nat :=
  match res_logs res with
  | Some ls => List.length (filter (accepted_topic accepted) ls)
  | None => 0
  end.

Section Decoder.

Variable decode : option (list Block) -> Log -> result string.

(** The logs of a batch whose processing throws. *)
Definition error_count (res : Response) : nat :=
  match res_logs res with
  | Some ls =>
      List.length (filter (fun log => threw (decode (res_blocks res) log)) ls)
  | None => 0
  end.

Definition line_of (bs : option (list Block)) (log : Log) : list string :=
  match decode bs log with
  | Ok csvRow => [csvRow]
  | Throw _ => []
  end.

(** The lines of the logs that decode, in the order of the logs. *)
Definition lines_of (res : Response) : list string :=
  match res_logs res with
  | Some ls => flat_map (line_of (res_blocks res)) ls
  | None => []
  end.

End Decoder.

(** The batches a run goes through: those received before the first
    [null] or rejection. *)
Fixpoint consumed (script : list recv) : list Response :=
  match script with
  | RecvRes res :: rest => res :: consumed rest
  | _ => []
  end.

(** The rows a trace appended to [file]: every call after the first. *)
Definition appended_rows (tr : Fs.trace) : nat := List.length tr - 1.

(** A sequence of block numbers that never goes down. *)
Fixpoint non_decreasing (l : list Z) : Prop :=
  match l with
  | [] => True
  | x :: rest =>
      match rest with
      | [] => True
      | y :: _ => (x <= y)%Z /\ non_decreasing rest
      end
  end.

(** A batch with logs [ls], blocks [bs] and next-block hint [next]. *)
Definition batch (ls : list Log) (bs : option (list Block)) (next : Z)
  : Response :=
  {| res_data := Some {| logs := Some ls; blocks := bs |};
     nextBlock := next |}.

(** How a run ends on a script of answers. *)
Fixpoint ending (script : list recv) : outcome :=
  match script with
  | [] => Awaiting
  | RecvNull :: _ => Completed
  | RecvReject :: _ => Fatal
  | RecvRes _ :: rest => ending rest
  end.

Definition sum (l : list nat) : nat := fold_right Nat.add 0 l.

(** The states the loop is in after each of the batches, in order. *)
Fixpoint states (file : string)
  (decode : option (list Block) -> Log -> result string)
  (st : RunState) (bs : list Response) : list RunState :=
  match bs with
  | [] => []
  | res :: rest =>
      step file decode st res
      :: states file decode (step file decode st res) rest
  end.

(** The rows one turn of the loop adds to the calls made so far. *)
Definition rows_appended_by (file : string)
  (decode : option (list Block) -> Log -> result string)
  (st : RunState) (res : Response) : nat :=
  List.length (fs (step file decode st res)) - List.length (fs st).

(** The text a sequence of appended lines adds up to. *)
Definition joined (rows : list string) : string :=
  fold_right String.append "" rows.

(** The logs of a sequence of batches whose processing throws. *)
Definition total_errors
  (decode : option (list Block) -> Log -> result string)
  (bs : list Response) : nat :=
  sum (map (error_count decode) bs).

(** The batches the second pass of the mint/burn tracker goes through:
    none unless the first pass reached the tip. *)
Definition second_pass (first_script second_script : list recv)
  : list Response :=
  match ending first_script with
  | Completed => consumed second_script
  | _ => []
  end.

(** The non-zero hints of a sequence of batches. *)
Definition hints (bs : list Response) : list Z :=
  filter (fun z => negb (z =? 0)%Z) (map nextBlock bs).

End Spec.

(** ** Sample records *)

Module Samples.

Import JS Hypersync PerLog Pipeline Spec.

(** Keccak-256 of [Transfer(address,address,uint256)] and of
    [Approval(address,address,uint256)]. *)
Definition transfer_topic : string :=
  "0xddf252ad1be2c89b69c2b068fc378daa952ba7f163c4a11628f55a4df523b3ef".

Definition approval_topic : string :=
  "0x8c5be1e5ebec7d5bd14f71427d1e84f3dd0314c0f7b2291e5b200ac8c7c3b925".

Definition holder_a : list byte := (repeat x00 12 ++ repeat xaa 20)%list.
Definition holder_b : list byte := (repeat x00 12 ++ repeat xb1 20)%list.

Definition payload_100 : string :=
  "0x0000000000000000000000000000000000000000000000000000000000000064".

(** A transfer with both addresses in named slots. *)
Definition log_named : Log :=
  {| blockNumber := JNum 11203130;
     transactionHash := JStr "0x01";
     topic0 := JStr transfer_topic;
     topic1 := JStr (topic_string holder_a);
     topic2 := JStr (topic_string holder_b);
     topics := JUndefined;
     data := JStr payload_100 |}.

(** The sender in a named slot, the receiver only in the array, whose
    entry for the sender is [null]. *)
Definition log_mixed : Log :=
  {| blockNumber := JNum 11203130;
     transactionHash := JStr "0x02";
     topic0 := JStr transfer_topic;
     topic1 := JStr (topic_string holder_a);
     topic2 := JUndefined;
     topics := JArr [JStr transfer_topic; JNull;
                     JStr (topic_string holder_b)];
     data := JStr payload_100 |}.

(** No named slots and a [topics] array whose second entry is [null]:
    [log.topics[1].slice] throws. *)
Definition log_throwing : Log :=
  {| blockNumber := JNum 11203131;
     transactionHash := JStr "0x03";
     topic0 := JStr transfer_topic;
     topic1 := JUndefined;
     topic2 := JUndefined;
     topics := JArr [JStr transfer_topic; JNull];
     data := JStr payload_100 |}.

(** An approval of the same token: a well-formed log whose topic0 is not
    the accepted one. *)
Definition log_stray : Log :=
  {| blockNumber := JNum 11203132;
     transactionHash := JStr "0x04";
     topic0 := JStr approval_topic;
     topic1 := JStr (topic_string holder_a);
     topic2 := JStr (topic_string holder_b);
     topics := JUndefined;
     data := JStr payload_100 |}.

Definition block_130 : Block :=
  {| number := JNum 11203130; timestamp := JNum 1719000000 |}.

(** A block record whose timestamp is 0. *)
Definition block_130_epoch : Block :=
  {| number := JNum 11203130; timestamp := JNum 0 |}.

Definition batch_stray : Response :=
  batch [log_stray] (Some []) 11203200.

Definition batch_first : Response :=
  batch [log_named; log_throwing; log_mixed] (Some [block_130]) 11203200.

Definition batch_high : Response := batch [] (Some []) 11203400.
Definition batch_low : Response := batch [] (Some []) 11203300.

End Samples.

(** ** The first-log dump

    Lines 74 and 85-97 (269 and 280-291 in the mint/burn tracker): the
    first time a batch holds a log, its first log is printed to the
    console, and [firstLogPrinted] is raised. *)

Module Debug.

Import JS Hypersync.

(** The three [console.log] calls of the block. *)
Inductive console : Type :=
| FirstLogStructure (log : Log)
| AvailableKeys (log : Log)
| TopicsArray (tps : jsval).

(** Lines 88-94: the structure, the keys, and the topics when
    [logs[0].topics] is truthy. *)
Definition dump (log0 : Log) : list console :=
  FirstLogStructure log0
  :: AvailableKeys log0
  :: (if truthy (topics log0) then [TopicsArray (topics log0)] else []).

(** Lines 87-97 on one batch: the flag afterwards and what was printed.
    The guard is [!firstLogPrinted && res.data && res.data.logs &&
    res.data.logs.length > 0]. *)
Definition debug_first_log (firstLogPrinted : bool) (res : Response)
  : bool * list console :=
  match res_logs res with
  | Some (log0 :: _) =>
      if negb firstLogPrinted then (true, dump log0)
      else (firstLogPrinted, [])
  | _ => (firstLogPrinted, [])
  end.

(** What the block prints over the batches of a pass. *)
Fixpoint debug_output (firstLogPrinted : bool) (bs : list Response)
  : list console :=
  match bs with
  | [] => []
  | res :: rest =>
      let (flag, out) := debug_first_log firstLogPrinted res in
      (out ++ debug_output flag rest)%list
  end.

End Debug.

(** ** More vocabulary *)

Module Views.

Import JS Hypersync PerLog Pipeline Spec.

(** The values [.slice] can be called on. *)
Definition sliceable (v : jsval) : bool :=
  match v with
  | JStr _ | JArr _ => true
  | _ => false
  end.

(** The value the address of topic [i] is cut from: the named slot when
    it is truthy, else entry [i] of the [topics] array when there is one,
    else nothing. *)
Definition read_from (slot : jsval) (i : nat) (tps : jsval) : option jsval :=
  if truthy slot then Some slot
  else if isArray tps && length_gt tps i then Some (index tps i)
  else None.

Definition readable (o : option jsval) : bool :=
  match o with
  | Some v => sliceable v
  | None => true
  end.

(** The address written for a value that can be cut. *)
Definition address_text (o : option jsval) : string :=
  match o with
  | Some (JStr s) => "0x" ++ str_slice_last 40 s
  | Some (JArr l) => "0x" ++ ToString (JArr (slice_last 40 l))
  | _ => "unknown"
  end.

(** The logs the loop skips. *)
Definition skipped (log : Log) : bool :=
  negb (readable (read_from (topic1 log) 1 (topics log))
        && readable (read_from (topic2 log) 2 (topics log))).

(** The last non-zero hint of a sequence of batches, [start] when there
    is none. *)
Definition last_hint (start : Z) (bs : list Response) : Z :=
  last (hints bs) start.

(** A batch that holds no log. *)
Definition no_logs (res : Response) : bool := (log_count res =? 0)%nat.

End Views.

Module MoreSamples.

Import JS Hypersync PerLog Pipeline Spec Samples.

Definition word_ff : string :=
  "00000000000000000000000000000000000000000000000000000000000000ff".

(** 64 characters, the last of which is no hex digit. *)
Definition word_bad : string :=
  "000000000000000000000000000000000000000000000000000000000000000g".

(** The block of [log_named] under a string number. *)
Definition block_130_text : Block :=
  {| number := JStr "11203130"; timestamp := JNum 1719000000 |}.

(** A second record of block 11203130 with another timestamp. *)
Definition block_130_late : Block :=
  {| number := JNum 11203130; timestamp := JNum 1719000999 |}.

Definition block_131 : Block :=
  {| number := JNum 11203131; timestamp := JNum 1719000002 |}.

(** A log without a block number. *)
Definition log_unnumbered : Log :=
  {| blockNumber := JUndefined;
     transactionHash := JStr "0x05";
     topic0 := JStr transfer_topic;
     topic1 := JStr (topic_string holder_a);
     topic2 := JStr (topic_string holder_b);
     topics := JUndefined;
     data := JStr payload_100 |}.

Definition batch_empty : Response := batch [] (Some []) 0.

(** The payload of the specification's single-amount example (62 hex
    digits) on a transfer log, and a payload of two words holding 50 and
    75 on a mint log. *)
Definition log_payload_100 : Log :=
  {| blockNumber := JNum 11203130;
     transactionHash := JStr "0x06";
     topic0 := JStr transfer_topic;
     topic1 := JStr (topic_string holder_a);
     topic2 := JStr (topic_string holder_b);
     topics := JUndefined;
     data :=
       JStr "0x00000000000000000000000000000000000000000000000000000000000064"
  |}.

Definition log_payload_50_75 : Log :=
  {| blockNumber := JNum 11203130;
     transactionHash := JStr "0x07";
     topic0 := JUndefined;
     topic1 := JStr (topic_string holder_a);
     topic2 := JStr (topic_string holder_b);
     topics := JUndefined;
     data :=
       JStr ("0x"
             ++ "0000000000000000000000000000000000000000000000000000000000000032"
             ++ "000000000000000000000000000000000000000000000000000000000000004b")
  |}.

End MoreSamples.

Import JS Hypersync PerLog Pipeline BigIntParse Spec Samples.

(** * Properties *)

(** ** Reading hex payloads *)

Section Parsing.

Lemma hex_digit_not_white (c : ascii) :
  is_hex_digit c = true -> is_white c = false.
Proof.
  destruct c as [[] [] [] [] [] [] [] []]; vm_compute; congruence.
Qed.

Lemma hex_digit_not_x (c : ascii) :
  is_hex_digit c = true -> c <> "x"%char.
Proof.
  intros H ->. vm_compute in H. discriminate.
Qed.

Lemma hex_digit_val (c : ascii) :
  is_hex_digit c = true ->
  exists d, digit_val c = Some d /\ (d <? 16)%N = true /\ digit_of c = d.
Proof.
  unfold is_hex_digit, is_digit, digit_of.
  destruct (digit_val c) as [d|]; [|discriminate].
  intros H. exists d. auto.
Qed.

Lemma digits_acc_hex (l : list ascii) :
  forallb is_hex_digit l = true ->
  forall acc,
    digits_acc 16 acc l
    = Some (acc * 16 ^ N.of_nat (List.length l)
            + be_value 16 (map digit_of l))%N.
Proof.
  induction l as [|c l IH]; intros Hall acc.
  - cbn. f_equal. lia.
  - cbn [forallb] in Hall. apply andb_true_iff in Hall as [Hc Hl].
    destruct (hex_digit_val c Hc) as (d & Hd & Hlt & Hof).
    cbn [digits_acc List.length map be_value].
    rewrite Hd, Hlt, (IH Hl), Hof. f_equal.
    rewrite length_map, Nat2N.inj_succ, N.pow_succ_r'. ring.
Qed.

Lemma parse_hex_digits (l : list ascii) :
  l <> [] -> forallb is_hex_digit l = true ->
  parse_digits 16 l = Some (be_value 16 (map digit_of l)).
Proof.
  intros Hne Hall. destruct l as [|c l]; [congruence|].
  unfold parse_digits. rewrite (digits_acc_hex _ Hall). f_equal.
Qed.

Lemma drop_white_head (c : ascii) (l : list ascii) :
  is_white c = false -> drop_white (c :: l) = c :: l.
Proof. intros H. cbn. now rewrite H. Qed.

(** A hex literal has no white space to trim. *)
Lemma trim_hex_literal (ds : list ascii) :
  forallb is_hex_digit ds = true ->
  trim ("0"%char :: "x"%char :: ds) = "0"%char :: "x"%char :: ds.
Proof.
  intros Hall. unfold trim.
  rewrite drop_white_head by reflexivity.
  assert (Hrev : drop_white (rev ("0"%char :: "x"%char :: ds))
                 = rev ("0"%char :: "x"%char :: ds)).
  { cbn [rev]. rewrite <- app_assoc. cbn [app].
    destruct (rev ds) as [|c r] eqn:E.
    - reflexivity.
    - cbn [app]. apply drop_white_head, hex_digit_not_white.
      rewrite forallb_forall in Hall. apply Hall, in_rev.
      rewrite E. now left. }
  rewrite Hrev. apply rev_involutive.
Qed.

Lemma list_ascii_app (a b : string) :
  list_ascii_of_string (a ++ b)
  = (list_ascii_of_string a ++ list_ascii_of_string b)%list.
Proof. induction a as [|c a IH]; cbn; [reflexivity | now rewrite IH]. Qed.

Lemma list_ascii_length (s : string) :
  List.length (list_ascii_of_string s) = String.length s.
Proof. induction s as [|c s IH]; cbn; [reflexivity | now rewrite IH]. Qed.

(** [BigInt] of a hex literal is the big-endian value of its digits. *)
Lemma BigInt_hex_literal (s : string) :
  s <> "" -> all_hex s = true ->
  BigInt ("0x" ++ s) = Ok (Z.of_N (hex_value s)).
Proof.
  intros Hne Hall. unfold BigInt, all_hex, hex_value in *.
  cbn [append list_ascii_of_string].
  rewrite (trim_hex_literal _ Hall). cbn [is_char Ascii.eqb].
  cbn -[parse_digits].
  rewrite parse_hex_digits; [reflexivity | | exact Hall].
  destruct s; [congruence | discriminate].
Qed.

Lemma toString_of_N (n : N) : toString (Z.of_N n) = decimal n.
Proof. destruct n; reflexivity. Qed.

Lemma str_slice_from_0x (s : string) : str_slice_from 2 ("0x" ++ s) = s.
Proof.
  unfold str_slice_from. cbn. apply string_of_list_ascii_of_string.
Qed.

Lemma cleanData_prefixed (s : string) : cleanData (JStr ("0x" ++ s)) = Ok s.
Proof.
  unfold cleanData.
  assert (H : prefix "0x" ("0x" ++ s) = true).
  { cbn [append prefix].
    destruct (ascii_dec "0" "0"); [|congruence].
    destruct (ascii_dec "x" "x"); [|congruence].
    now destruct s. }
  now rewrite H, str_slice_from_0x.
Qed.

Lemma prefix_0x_hex (s : string) : all_hex s = true -> prefix "0x" s = false.
Proof.
  unfold all_hex. destruct s as [|a [|b s]]; [reflexivity | |].
  { intros _. cbn [prefix]. now destruct (ascii_dec "0" a). }
  cbn [list_ascii_of_string forallb]. intros H.
  apply andb_true_iff in H as [_ H]. apply andb_true_iff in H as [Hb _].
  cbn [prefix]. destruct (ascii_dec "0" a); [|reflexivity].
  destruct (ascii_dec "x" b) as [<-|]; [|reflexivity].
  now apply hex_digit_not_x in Hb.
Qed.

Lemma cleanData_bare (s : string) :
  all_hex s = true -> cleanData (JStr s) = Ok s.
Proof. intros H. unfold cleanData. now rewrite prefix_0x_hex. Qed.

Lemma truthy_nonempty (s : string) : s <> "" -> truthy (JStr s) = true.
Proof.
  intros H. cbn. apply negb_true_iff, String.eqb_neq. exact H.
Qed.

End Parsing.

(** ** Amounts *)

Section Amounts.

Lemma amount_of_hex (s : string) :
  s <> "" -> all_hex s = true ->
  forall data, truthy data = true -> cleanData data = Ok s ->
  Transfers.amount_of data = decimal (hex_value s).
Proof.
  intros Hne Hall data Ht Hc. unfold Transfers.amount_of.
  rewrite Ht, Hc. cbn [bind].
  rewrite (BigInt_hex_literal _ Hne Hall). cbn [bind try_catch].
  apply toString_of_N.
Qed.

Lemma truthy_0x (s : string) : truthy (JStr ("0x" ++ s)) = true.
Proof. reflexivity. Qed.

Lemma amount_of_failure (data : jsval) :
  threw (bind (cleanData data) (fun clean => BigInt ("0x" ++ clean))) = true ->
  Transfers.amount_of data = "0".
Proof.
  intros H. unfold Transfers.amount_of.
  destruct (truthy data); [|reflexivity].
  destruct (cleanData data) as [clean|e]; cbn [bind] in *; [|reflexivity].
  destruct (BigInt ("0x" ++ clean)); [discriminate | reflexivity].
Qed.

Lemma amount_of_payload (s : string) :
  s <> "" -> all_hex s = true ->
  forall data, data = JStr ("0x" ++ s) \/ data = JStr s ->
  Transfers.amount_of data = decimal (hex_value s).
Proof.
  intros Hne Hall data [-> | ->].
  - apply (amount_of_hex s Hne Hall); [apply truthy_0x|].
    apply cleanData_prefixed.
  - apply (amount_of_hex s Hne Hall); [now apply truthy_nonempty|].
    now apply cleanData_bare.
Qed.

(** The row of a log whose addresses are read, and the line written for
    it: the amount is what [amount_of] reads from the payload. *)
Lemma Transfers_row_of (bs : option (list Block)) (log : Log)
  (a : string * string) :
  extract_addresses log = Ok a ->
  exists r,
    Transfers.decode_row bs log = Ok r
    /\ Transfers.row_amount r = Transfers.amount_of (data log)
    /\ Transfers.decode bs log
       = Ok (csv_line [Transfers.row_blockNumber r; Transfers.row_timestamp r;
                       Transfers.row_txHash r; Transfers.row_fromAddress r;
                       Transfers.row_toAddress r;
                       Transfers.amount_of (data log)]).
Proof.
  intros H. unfold Transfers.decode, Transfers.decode_row.
  rewrite H. cbn [bind]. eexists. split; [reflexivity|].
  split; reflexivity.
Qed.

(** C3: in the single-amount layout the amount field of the row, and of
    the line written to the file, is the whole payload, with or without
    its [0x] prefix, read as one big-endian unsigned integer and written
    in decimal; the payload of the specification's example gives a row
    with amount ["100"]; a payload on which [startsWith] or [BigInt]
    throws gives a row with amount ["0"], and no payload makes the
    decoder throw.  The first three parts say the same of [amount_of],
    the part of the decoder that reads the payload. *)
Theorem C3_single_amount :
  (forall s : string, s <> "" -> all_hex s = true ->
     Transfers.amount_of (JStr ("0x" ++ s)) = decimal (hex_value s)
     /\ Transfers.amount_of (JStr s) = decimal (hex_value s))
  /\ Transfers.amount_of
       (JStr "0x00000000000000000000000000000000000000000000000000000000000064")
     = "100"
  /\ (forall data : jsval,
        threw (bind (cleanData data) (fun clean => BigInt ("0x" ++ clean)))
        = true ->
        Transfers.amount_of data = "0")
  /\ (forall (bs : option (list Block)) (log : Log) (s : string)
             (a : string * string),
        s <> "" -> all_hex s = true ->
        data log = JStr ("0x" ++ s) \/ data log = JStr s ->
        extract_addresses log = Ok a ->
        exists r,
          Transfers.decode_row bs log = Ok r
          /\ Transfers.row_amount r = decimal (hex_value s)
          /\ Transfers.decode bs log
             = Ok (csv_line [Transfers.row_blockNumber r;
                             Transfers.row_timestamp r;
                             Transfers.row_txHash r;
                             Transfers.row_fromAddress r;
                             Transfers.row_toAddress r;
                             decimal (hex_value s)]))
  /\ Transfers.decode_row (Some [block_130]) MoreSamples.log_payload_100
     = Ok {| Transfers.row_blockNumber := "11203130";
             Transfers.row_timestamp := "1719000000";
             Transfers.row_txHash := "0x06";
             Transfers.row_fromAddress := address_string holder_a;
             Transfers.row_toAddress := address_string holder_b;
             Transfers.row_amount := "100" |}
  /\ (forall (bs : option (list Block)) (log : Log) (a : string * string),
        threw (bind (cleanData (data log))
                 (fun clean => BigInt ("0x" ++ clean))) = true ->
        extract_addresses log = Ok a ->
        exists r,
          Transfers.decode_row bs log = Ok r
          /\ Transfers.row_amount r = "0"
          /\ Transfers.decode bs log
             = Ok (csv_line [Transfers.row_blockNumber r;
                             Transfers.row_timestamp r;
                             Transfers.row_txHash r;
                             Transfers.row_fromAddress r;
                             Transfers.row_toAddress r; "0"]))
  /\ (forall (bs : option (list Block)) (log : Log),
        threw (Transfers.decode_row bs log) = threw (extract_addresses log)
        /\ threw (Transfers.decode bs log) = threw (extract_addresses log)).
Proof.
  split; [|split; [|split; [|split; [|split; [|split]]]]].
  - intros s Hne Hall. split.
    + apply (amount_of_payload s Hne Hall). now left.
    + apply (amount_of_payload s Hne Hall). now right.
  - vm_compute. reflexivity.
  - apply amount_of_failure.
  - intros bs log s a Hne Hall Hd Ha.
    destruct (Transfers_row_of bs log a Ha) as (r & R & A & L).
    exists r. rewrite <- (amount_of_payload s Hne Hall (data log) Hd).
    auto.
  - vm_compute. reflexivity.
  - intros bs log a Hf Ha.
    destruct (Transfers_row_of bs log a Ha) as (r & R & A & L).
    exists r. rewrite <- (amount_of_failure (data log) Hf). auto.
  - intros bs log. unfold Transfers.decode, Transfers.decode_row.
    now destruct (extract_addresses log).
Qed.

Lemma C3_single_amount_witness :
  Transfers.amount_of (JStr ("0x" ++ "01ff")) = decimal (hex_value "01ff")
  /\ Transfers.amount_of (JStr "01ff") = decimal (hex_value "01ff")
  /\ Transfers.amount_of (JStr "0xzz") = "0"
  /\ exists r,
       Transfers.decode_row (Some [block_130]) log_named = Ok r
       /\ Transfers.row_amount r
          = decimal
              (hex_value
                 "0000000000000000000000000000000000000000000000000000000000000064")
       /\ Transfers.decode (Some [block_130]) log_named
          = Ok (csv_line
                  [Transfers.row_blockNumber r; Transfers.row_timestamp r;
                   Transfers.row_txHash r; Transfers.row_fromAddress r;
                   Transfers.row_toAddress r;
                   decimal
                     (hex_value
                        "0000000000000000000000000000000000000000000000000000000000000064")]).
Proof.
  split; [|split; [|split]].
  - apply (proj1 C3_single_amount "01ff"); [discriminate | reflexivity].
  - apply (proj1 C3_single_amount "01ff"); [discriminate | reflexivity].
  - apply (proj1 (proj2 (proj2 C3_single_amount)) (JStr "0xzz")).
    reflexivity.
  - eapply (proj1 (proj2 (proj2 (proj2 C3_single_amount)))
              (Some [block_130]) log_named).
    + discriminate.
    + reflexivity.
    + left. reflexivity.
    + reflexivity.
Defined.

Lemma string_length_app (a b : string) :
  String.length (a ++ b) = String.length a + String.length b.
Proof. induction a as [|c a IH]; cbn; [reflexivity | now rewrite IH]. Qed.

Lemma str_slice_first (w t : string) :
  str_slice_range 0 (String.length w) (w ++ t) = w.
Proof.
  unfold str_slice_range, slice_range.
  rewrite Nat.sub_0_r, list_ascii_app. cbn [skipn].
  rewrite <- list_ascii_length, firstn_app, Nat.sub_diag, firstn_all.
  cbn [firstn]. rewrite app_nil_r. apply string_of_list_ascii_of_string.
Qed.

Lemma str_slice_second (w0 w1 t : string) :
  str_slice_range (String.length w0) (String.length w0 + String.length w1)
    (w0 ++ w1 ++ t) = w1.
Proof.
  unfold str_slice_range, slice_range.
  rewrite !list_ascii_app, <- !list_ascii_length.
  rewrite skipn_app, Nat.sub_diag, skipn_all. cbn [skipn app].
  replace (List.length (list_ascii_of_string w0)
           + List.length (list_ascii_of_string w1)
           - List.length (list_ascii_of_string w0))
    with (List.length (list_ascii_of_string w1)) by lia.
  rewrite firstn_app, Nat.sub_diag, firstn_all. cbn [firstn].
  rewrite app_nil_r. apply string_of_list_ascii_of_string.
Qed.

Lemma all_hex_word_prefix (w t : string) :
  2 <= String.length w -> all_hex w = true -> prefix "0x" (w ++ t) = false.
Proof.
  destruct w as [|a [|b w]]; cbn [String.length]; try lia.
  intros _ H. unfold all_hex in H. cbn [list_ascii_of_string forallb] in H.
  apply andb_true_iff in H as [_ H]. apply andb_true_iff in H as [Hb _].
  cbn [append prefix]. destruct (ascii_dec "0" a); [|reflexivity].
  destruct (ascii_dec "x" b) as [<-|]; [|reflexivity].
  now apply hex_digit_not_x in Hb.
Qed.

Lemma word_nonempty (w : string) : String.length w = 64 -> w <> "".
Proof. intros H ->. discriminate. Qed.

Lemma amounts_of_words (w0 w1 rest : string) :
  String.length w0 = 64 -> String.length w1 = 64 ->
  all_hex w0 = true -> all_hex w1 = true ->
  forall data, truthy data = true ->
    cleanData data = Ok (w0 ++ w1 ++ rest) ->
    MintBurn.amounts_of data = (decimal (hex_value w0), decimal (hex_value w1)).
Proof.
  intros L0 L1 H0 H1 data Ht Hc. unfold MintBurn.amounts_of.
  rewrite Ht, Hc. cbn [bind].
  assert (Hlen : (128 <=? String.length (w0 ++ w1 ++ rest))%nat = true).
  { apply Nat.leb_le. rewrite !string_length_app. lia. }
  rewrite Hlen.
  pose proof (str_slice_first w0 (w1 ++ rest)) as S0.
  pose proof (str_slice_second w0 w1 rest) as S1.
  rewrite L0 in S0, S1. rewrite L1 in S1. cbn [Nat.add] in S1.
  rewrite S0, S1.
  rewrite (BigInt_hex_literal w0 (word_nonempty _ L0) H0).
  rewrite (BigInt_hex_literal w1 (word_nonempty _ L1) H1).
  cbn [bind try_catch]. now rewrite !toString_of_N.
Qed.

Lemma amounts_of_short (clean : string) :
  String.length clean < 128 ->
  forall data, cleanData data = Ok clean ->
    MintBurn.amounts_of data = ("0", "0").
Proof.
  intros Hlt data Hc. unfold MintBurn.amounts_of.
  destruct (truthy data); [|reflexivity]. rewrite Hc. cbn [bind].
  apply Nat.leb_gt in Hlt. now rewrite Hlt.
Qed.

Lemma str_slice_from_length (n : nat) (s : string) :
  String.length (str_slice_from n s) <= String.length s.
Proof.
  unfold str_slice_from.
  rewrite <- !list_ascii_length, list_ascii_of_string_of_list_ascii.
  rewrite length_skipn. lia.
Qed.

Lemma amounts_of_payload (w0 w1 rest : string) :
  String.length w0 = 64 -> String.length w1 = 64 ->
  all_hex w0 = true -> all_hex w1 = true ->
  forall data,
    data = JStr ("0x" ++ w0 ++ w1 ++ rest) \/ data = JStr (w0 ++ w1 ++ rest) ->
    MintBurn.amounts_of data = (decimal (hex_value w0), decimal (hex_value w1)).
Proof.
  intros L0 L1 H0 H1 data [-> | ->].
  - apply (amounts_of_words w0 w1 rest L0 L1 H0 H1);
      [apply truthy_0x | apply cleanData_prefixed].
  - apply (amounts_of_words w0 w1 rest L0 L1 H0 H1).
    + apply truthy_nonempty. intros E.
      apply (f_equal String.length) in E.
      rewrite string_length_app in E. cbn in E. lia.
    + unfold cleanData.
      rewrite all_hex_word_prefix; [reflexivity | lia | exact H0].
Qed.

Lemma amounts_of_short_payload (clean : string) :
  String.length clean < 128 ->
  forall data,
    data = JStr ("0x" ++ clean) \/ data = JStr clean ->
    MintBurn.amounts_of data = ("0", "0").
Proof.
  intros Hlt data [-> | ->].
  - apply (amounts_of_short clean Hlt), cleanData_prefixed.
  - destruct (prefix "0x" clean) eqn:E.
    + apply (amounts_of_short (str_slice_from 2 clean)).
      * pose proof (str_slice_from_length 2 clean). lia.
      * unfold cleanData. now rewrite E.
    + apply (amounts_of_short clean Hlt). unfold cleanData. now rewrite E.
Qed.

(** The row of a log whose addresses are read, and the line written for
    it: the amounts are what [amounts_of] reads from the payload. *)
Lemma MintBurn_row_of (eventType : string) (bs : option (list Block))
  (log : Log) (a : string * string) :
  extract_addresses log = Ok a ->
  exists r,
    MintBurn.decode_row eventType bs log = Ok r
    /\ MintBurn.row_amount0 r = fst (MintBurn.amounts_of (data log))
    /\ MintBurn.row_amount1 r = snd (MintBurn.amounts_of (data log))
    /\ MintBurn.decode eventType bs log
       = Ok (csv_line [MintBurn.row_blockNumber r; MintBurn.row_timestamp r;
                       MintBurn.row_txHash r; MintBurn.row_senderAddress r;
                       MintBurn.row_toAddress r;
                       fst (MintBurn.amounts_of (data log));
                       snd (MintBurn.amounts_of (data log));
                       eventType]).
Proof.
  intros H. unfold MintBurn.decode, MintBurn.decode_row.
  rewrite H. cbn [bind]. eexists. split; [reflexivity|].
  split; [reflexivity|]. split; reflexivity.
Qed.

(** C4: in the dual-amount layout, when the payload has at least 128
    characters once its [0x] prefix is taken off and the first two
    64-character words are hex, the fields amount0 and amount1 of the
    row, and of the line written to the file, are the two words as
    decimal big-endian integers; words encoding 50 and 75 give a row with
    ["50"] and ["75"]; a shorter payload gives a row with ["0"] for both.
    The first three parts say the same of [amounts_of], the part of the
    decoder that reads the payload. *)
Theorem C4_dual_amounts :
  (forall w0 w1 rest : string,
     String.length w0 = 64 -> String.length w1 = 64 ->
     all_hex w0 = true -> all_hex w1 = true ->
     MintBurn.amounts_of (JStr ("0x" ++ w0 ++ w1 ++ rest))
     = (decimal (hex_value w0), decimal (hex_value w1))
     /\ MintBurn.amounts_of (JStr (w0 ++ w1 ++ rest))
        = (decimal (hex_value w0), decimal (hex_value w1)))
  /\ MintBurn.amounts_of
       (JStr ("0x"
              ++ "0000000000000000000000000000000000000000000000000000000000000032"
              ++ "000000000000000000000000000000000000000000000000000000000000004b"))
     = ("50", "75")
  /\ (forall clean : string,
        String.length clean < 128 ->
        MintBurn.amounts_of (JStr ("0x" ++ clean)) = ("0", "0")
        /\ MintBurn.amounts_of (JStr clean) = ("0", "0"))
  /\ (forall (eventType : string) (bs : option (list Block)) (log : Log)
             (w0 w1 rest : string) (a : string * string),
        String.length w0 = 64 -> String.length w1 = 64 ->
        all_hex w0 = true -> all_hex w1 = true ->
        data log = JStr ("0x" ++ w0 ++ w1 ++ rest)
        \/ data log = JStr (w0 ++ w1 ++ rest) ->
        extract_addresses log = Ok a ->
        exists r,
          MintBurn.decode_row eventType bs log = Ok r
          /\ MintBurn.row_amount0 r = decimal (hex_value w0)
          /\ MintBurn.row_amount1 r = decimal (hex_value w1)
          /\ MintBurn.decode eventType bs log
             = Ok (csv_line [MintBurn.row_blockNumber r;
                             MintBurn.row_timestamp r;
                             MintBurn.row_txHash r;
                             MintBurn.row_senderAddress r;
                             MintBurn.row_toAddress r;
                             decimal (hex_value w0);
                             decimal (hex_value w1);
                             eventType]))
  /\ MintBurn.decode_row "mint" (Some [block_130])
       MoreSamples.log_payload_50_75
     = Ok {| MintBurn.row_blockNumber := "11203130";
             MintBurn.row_timestamp := "1719000000";
             MintBurn.row_txHash := "0x07";
             MintBurn.row_senderAddress := address_string holder_a;
             MintBurn.row_toAddress := address_string holder_b;
             MintBurn.row_amount0 := "50";
             MintBurn.row_amount1 := "75";
             MintBurn.row_eventType := "mint" |}
  /\ (forall (eventType : string) (bs : option (list Block)) (log : Log)
             (clean : string) (a : string * string),
        String.length clean < 128 ->
        data log = JStr ("0x" ++ clean) \/ data log = JStr clean ->
        extract_addresses log = Ok a ->
        exists r,
          MintBurn.decode_row eventType bs log = Ok r
          /\ MintBurn.row_amount0 r = "0"
          /\ MintBurn.row_amount1 r = "0"
          /\ MintBurn.decode eventType bs log
             = Ok (csv_line [MintBurn.row_blockNumber r;
                             MintBurn.row_timestamp r;
                             MintBurn.row_txHash r;
                             MintBurn.row_senderAddress r;
                             MintBurn.row_toAddress r;
                             "0"; "0"; eventType])).
Proof.
  split; [|split; [|split; [|split; [|split]]]].
  - intros w0 w1 rest L0 L1 H0 H1. split.
    + apply (amounts_of_payload w0 w1 rest L0 L1 H0 H1). now left.
    + apply (amounts_of_payload w0 w1 rest L0 L1 H0 H1). now right.
  - vm_compute. reflexivity.
  - intros clean Hlt. split.
    + apply (amounts_of_short_payload clean Hlt). now left.
    + apply (amounts_of_short_payload clean Hlt). now right.
  - intros ty bs log w0 w1 rest a L0 L1 H0 H1 Hd Ha.
    destruct (MintBurn_row_of ty bs log a Ha) as (r & R & A0 & A1 & L).
    rewrite (amounts_of_payload w0 w1 rest L0 L1 H0 H1 (data log) Hd)
      in A0, A1, L.
    exists r. auto.
  - vm_compute. reflexivity.
  - intros ty bs log clean a Hlt Hd Ha.
    destruct (MintBurn_row_of ty bs log a Ha) as (r & R & A0 & A1 & L).
    rewrite (amounts_of_short_payload clean Hlt (data log) Hd) in A0, A1, L.
    exists r. auto.
Qed.

End Amounts.

Lemma C4_dual_amounts_witness :
  MintBurn.amounts_of
    (JStr ("0x"
           ++ "00000000000000000000000000000000000000000000000000000000000000ff"
           ++ "0000000000000000000000000000000000000000000000000000000000000100"
           ++ "deadbeef"))
  = (decimal
       (hex_value
          "00000000000000000000000000000000000000000000000000000000000000ff"),
     decimal
       (hex_value
          "0000000000000000000000000000000000000000000000000000000000000100"))
  /\ MintBurn.amounts_of (JStr ("0x" ++ "0032")) = ("0", "0")
  /\ (exists r,
        MintBurn.decode_row "burn" None MoreSamples.log_payload_50_75 = Ok r
        /\ MintBurn.row_amount0 r
           = decimal
               (hex_value
                  "0000000000000000000000000000000000000000000000000000000000000032")
        /\ MintBurn.row_amount1 r
           = decimal
               (hex_value
                  "000000000000000000000000000000000000000000000000000000000000004b"))
  /\ (exists r,
        MintBurn.decode_row "burn" None log_named = Ok r
        /\ MintBurn.row_amount0 r = "0"
        /\ MintBurn.row_amount1 r = "0").
Proof.
  split; [|split; [|split]].
  - apply (proj1 C4_dual_amounts); reflexivity.
  - apply (proj1 (proj2 (proj2 C4_dual_amounts)) "0032"). cbn. lia.
  - destruct (proj1 (proj2 (proj2 (proj2 C4_dual_amounts)))
                "burn" None MoreSamples.log_payload_50_75
                "0000000000000000000000000000000000000000000000000000000000000032"
                "000000000000000000000000000000000000000000000000000000000000004b"
                ""
                (address_string holder_a, address_string holder_b)
                eq_refl eq_refl eq_refl eq_refl
                (or_introl eq_refl) eq_refl)
      as (r & R & A0 & A1 & _).
    exists r. auto.
  - destruct (proj2 (proj2 (proj2 (proj2 (proj2 C4_dual_amounts))))
                "burn" None log_named
                "0000000000000000000000000000000000000000000000000000000000000064"
                (address_string holder_a, address_string holder_b))
      as (r & R & A0 & A1 & _).
    + cbn. lia.
    + left. reflexivity.
    + reflexivity.
    + exists r. auto.
Defined.

(** ** Addresses *)

Section Addresses.

Lemma hex_of_byte_length (b : byte) : List.length (hex_of_byte b) = 2.
Proof. reflexivity. Qed.

Lemma hex_chars_length (bs : list byte) :
  List.length (flat_map hex_of_byte bs) = 2 * List.length bs.
Proof.
  induction bs as [|b bs IH]; [reflexivity|].
  cbn [flat_map List.length]. rewrite length_app, IH, hex_of_byte_length. lia.
Qed.

Lemma hex_chars_skipn (k : nat) (bs : list byte) :
  skipn (2 * k) (flat_map hex_of_byte bs) = flat_map hex_of_byte (skipn k bs).
Proof.
  revert bs. induction k as [|k IH]; intros bs; [reflexivity|].
  destruct bs as [|b bs]; [reflexivity|].
  replace (2 * S k) with (S (S (2 * k))) by lia.
  cbn [flat_map skipn hex_of_byte app]. apply IH.
Qed.

(** [slice(-40)] of a 32-byte topic string keeps the hex digits of its 20
    last bytes. *)
Lemma slice_topic_string (bs : list byte) :
  List.length bs = 32 ->
  str_slice_last 40 (topic_string bs) = hex_of_bytes (low_order 20 bs).
Proof.
  intros L. unfold str_slice_last, slice_last, topic_string, hex_of_bytes.
  cbn [append list_ascii_of_string].
  rewrite list_ascii_of_string_of_list_ascii.
  cbn [List.length]. rewrite hex_chars_length, L.
  change (S (S (2 * 32)) - 40) with (S (S (2 * 12))).
  cbn [skipn]. rewrite hex_chars_skipn.
  unfold low_order. rewrite L. reflexivity.
Qed.

Lemma named_slot_topic (bs : list byte) (addr : string) :
  List.length bs = 32 ->
  named_slot (JStr (topic_string bs)) addr = Ok (address_string bs).
Proof.
  intros L. unfold named_slot.
  replace (truthy (JStr (topic_string bs))) with true by reflexivity.
  cbn [slice_neg40 bind ToString]. now rewrite slice_topic_string.
Qed.

Lemma named_slot_missing (slot : jsval) (addr : string) :
  truthy slot = false -> named_slot slot addr = Ok addr.
Proof. intros H. unfold named_slot. now rewrite H. Qed.

Lemma array_slot_topic (tps : jsval) (l : list jsval) (i : nat)
  (bs : list byte) :
  List.length bs = 32 -> tps = JArr l ->
  nth_error l i = Some (JStr (topic_string bs)) ->
  array_slot tps i "unknown" = Ok (address_string bs).
Proof.
  intros L -> Hn. unfold array_slot.
  assert (Hi : i < List.length l)
    by (apply nth_error_Some; rewrite Hn; discriminate).
  replace ("unknown" =? "unknown") with true by reflexivity.
  cbn [truthy isArray length_gt index andb].
  replace (i <? List.length l)%nat with true
    by (symmetry; now apply Nat.ltb_lt).
  rewrite (nth_error_nth _ _ _ Hn).
  cbn [slice_neg40 bind ToString]. now rewrite slice_topic_string.
Qed.

Lemma array_slot_short (tps : jsval) (i : nat) (addr : string) :
  length_gt tps i = false -> array_slot tps i addr = Ok addr.
Proof.
  intros H. unfold array_slot. rewrite H. now rewrite !andb_false_r.
Qed.

(** An address already read from a named slot is left alone. *)
Lemma array_slot_known (tps : jsval) (i : nat) (bs : list byte) :
  array_slot tps i (address_string bs) = Ok (address_string bs).
Proof. reflexivity. Qed.

(** *** The bytes behind the hex digits *)

Lemma be_value_app (base : N) (l1 l2 : list N) :
  be_value base (l1 ++ l2)
  = (be_value base l1 * base ^ N.of_nat (List.length l2)
     + be_value base l2)%N.
Proof.
  induction l1 as [|d l1 IH]; cbn [app be_value]; [lia|].
  rewrite IH, length_app, Nat2N.inj_add, N.pow_add_r. ring.
Qed.

Lemma bytes_value_bound (bs : list byte) :
  (bytes_value bs < 256 ^ N.of_nat (List.length bs))%N.
Proof.
  unfold bytes_value. induction bs as [|b bs IH]; [cbn; lia|].
  cbn [map be_value List.length]. rewrite length_map.
  rewrite Nat2N.inj_succ, N.pow_succ_r'.
  pose proof (Byte.to_N_bounded b). nia.
Qed.

Lemma hex_of_byte_digits (b : byte) :
  forallb is_hex_digit (hex_of_byte b) = true
  /\ be_value 16 (map digit_of (hex_of_byte b)) = Byte.to_N b.
Proof. destruct b; vm_compute; auto. Qed.

Lemma all_hex_of_bytes (bs : list byte) : all_hex (hex_of_bytes bs) = true.
Proof.
  unfold all_hex, hex_of_bytes. rewrite list_ascii_of_string_of_list_ascii.
  induction bs as [|b bs IH]; [reflexivity|].
  cbn [flat_map]. rewrite forallb_app, IH.
  now rewrite (proj1 (hex_of_byte_digits b)).
Qed.

(** The hex digits of a byte sequence write the integer the bytes hold. *)
Lemma hex_value_of_bytes (bs : list byte) :
  hex_value (hex_of_bytes bs) = bytes_value bs.
Proof.
  unfold hex_value, hex_of_bytes, bytes_value.
  rewrite list_ascii_of_string_of_list_ascii.
  induction bs as [|b bs IH]; [reflexivity|].
  cbn [flat_map map be_value]. rewrite map_app, be_value_app, IH.
  rewrite (proj2 (hex_of_byte_digits b)).
  rewrite !length_map, hex_chars_length, Nat2N.inj_mul, N.pow_mul_r.
  reflexivity.
Qed.

(** The last 20 bytes of a topic hold its value modulo 2^160. *)
Lemma low_order_value (bs : list byte) :
  List.length bs = 32 ->
  bytes_value (low_order 20 bs) = (bytes_value bs mod 2 ^ 160)%N.
Proof.
  intros L. unfold low_order. rewrite L.
  change (32 - 20) with 12.
  rewrite <- (firstn_skipn 12 bs) at 2.
  unfold bytes_value at 2. rewrite map_app, be_value_app.
  fold (bytes_value (skipn 12 bs)). rewrite length_map.
  pose proof (bytes_value_bound (skipn 12 bs)) as B.
  rewrite length_skipn, L in *. change (32 - 12) with 20 in *.
  change (256 ^ N.of_nat 20)%N with (2 ^ 160)%N in *.
  rewrite N.add_comm, N.Div0.mod_add. symmetry. now apply N.mod_small.
Qed.

Lemma address_string_length (bs : list byte) :
  List.length bs = 32 -> String.length (address_string bs) = 42.
Proof.
  intros L. unfold address_string, hex_of_bytes. cbn [append String.length].
  rewrite <- list_ascii_length, list_ascii_of_string_of_list_ascii.
  rewrite hex_chars_length. unfold low_order.
  rewrite length_skipn, L. reflexivity.
Qed.

Lemma reads_named_then_array (log : Log) (i : nat) (slot : jsval)
  (a : string) :
  reads log i slot a ->
  exists a', named_slot slot "unknown" = Ok a'
             /\ array_slot (topics log) i a' = Ok a.
Proof.
  intros [bs L -> | bs l L Hs Ht Hn | Hs Hl].
  - exists (address_string bs). split.
    + now apply named_slot_topic.
    + apply array_slot_known.
  - exists "unknown". split.
    + now apply named_slot_missing.
    + now apply (array_slot_topic _ l).
  - exists "unknown". split.
    + now apply named_slot_missing.
    + now apply array_slot_short.
Qed.

Lemma extract_addresses_reads (log : Log) (a1 a2 : string) :
  reads log 1 (topic1 log) a1 -> reads log 2 (topic2 log) a2 ->
  extract_addresses log = Ok (a1, a2).
Proof.
  intros R1 R2.
  destruct (reads_named_then_array _ _ _ _ R1) as (b1 & N1 & A1).
  destruct (reads_named_then_array _ _ _ _ R2) as (b2 & N2 & A2).
  unfold extract_addresses. rewrite N1. cbn [bind]. rewrite N2. cbn [bind].
  rewrite A1. cbn [bind]. rewrite A2. reflexivity.
Qed.

(** C2: the address written for a topic is ["0x"] and the 40 hex digits
    of the 20 low-order bytes of the 32-byte topic, whether the topic
    comes from the named slot (which wins when both are there) or from
    the [topics] array; with neither, the address is ["unknown"]; and in
    all these cases the row is produced, in both scripts. *)
Theorem C2_address_extraction :
  forall (log : Log) (a1 a2 : string),
    reads log 1 (topic1 log) a1 ->
    reads log 2 (topic2 log) a2 ->
    extract_addresses log = Ok (a1, a2)
    /\ (forall bs, exists r,
          Transfers.decode_row bs log = Ok r
          /\ Transfers.row_fromAddress r = a1
          /\ Transfers.row_toAddress r = a2)
    /\ (forall eventType bs, exists r,
          MintBurn.decode_row eventType bs log = Ok r
          /\ MintBurn.row_senderAddress r = a1
          /\ MintBurn.row_toAddress r = a2).
Proof.
  intros log a1 a2 R1 R2.
  pose proof (extract_addresses_reads log a1 a2 R1 R2) as E.
  split; [exact E|]. split.
  - intros bs. unfold Transfers.decode_row. rewrite E. cbn [bind].
    eexists. split; [reflexivity|]. split; reflexivity.
  - intros ty bs. unfold MintBurn.decode_row. rewrite E. cbn [bind].
    eexists. split; [reflexivity|]. split; reflexivity.
Qed.

End Addresses.

Lemma C2_address_extraction_witness :
  extract_addresses log_mixed
  = Ok (address_string holder_a, address_string holder_b).
Proof.
  refine (proj1 (C2_address_extraction log_mixed _ _ _ _)).
  - apply reads_named; reflexivity.
  - apply (reads_array _ _ _ holder_b
             [JStr transfer_topic; JNull; JStr (topic_string holder_b)]);
      reflexivity.
Defined.

(** ** The loop, whatever the decoder *)

Section LoopFacts.

Variable file : string.
Variable decode : option (list Block) -> Log -> result string.

Lemma process_logs_lines (bs : option (list Block)) (ls : list Log) :
  forall tr,
    process_logs file decode bs ls tr
    = (tr ++ map (Fs.appendFileSync file)
               (flat_map (line_of decode bs) ls))%list.
Proof.
  unfold process_logs.
  induction ls as [|log ls IH]; intros tr; cbn [fold_left flat_map].
  - now rewrite app_nil_r.
  - rewrite IH, map_app, app_assoc. f_equal.
    unfold process_log, line_of.
    destruct (decode bs log); cbn [map]; [reflexivity | now rewrite app_nil_r].
Qed.

Lemma step_fs (st : RunState) (res : Response) :
  fs (step file decode st res)
  = (fs st ++ map (Fs.appendFileSync file) (lines_of decode res))%list.
Proof.
  unfold step, lines_of.
  destruct (res_logs res) as [ls|], (nextBlock res =? 0)%Z; cbn [fs];
    try apply process_logs_lines; now rewrite app_nil_r.
Qed.

Lemma step_totalEvents (st : RunState) (res : Response) :
  totalEvents (step file decode st res) = totalEvents st + log_count res.
Proof.
  unfold step, log_count.
  destruct (res_logs res) as [ls|], (nextBlock res =? 0)%Z;
    cbn [totalEvents]; lia.
Qed.

Lemma step_fromBlock (st : RunState) (res : Response) :
  fromBlock (step file decode st res)
  = if (nextBlock res =? 0)%Z then fromBlock st else nextBlock res.
Proof.
  unfold step.
  destruct (res_logs res) as [ls|], (nextBlock res =? 0)%Z; reflexivity.
Qed.

Lemma line_of_length (bs : option (list Block)) (ls : list Log) :
  List.length (flat_map (line_of decode bs) ls)
  + List.length (filter (fun log => threw (decode bs log)) ls)
  = List.length ls.
Proof.
  induction ls as [|log ls IH]; [reflexivity|].
  cbn [flat_map filter]. rewrite length_app. unfold line_of at 1.
  destruct (decode bs log); cbn [threw List.length app]; lia.
Qed.

Lemma lines_errors_count (res : Response) :
  List.length (lines_of decode res) + error_count decode res = log_count res.
Proof.
  unfold lines_of, error_count, log_count.
  destruct (res_logs res); [apply line_of_length | reflexivity].
Qed.

Lemma rows_appended_lines (st : RunState) (res : Response) :
  rows_appended_by file decode st res = List.length (lines_of decode res).
Proof.
  unfold rows_appended_by.
  rewrite step_fs, length_app, length_map. lia.
Qed.

Lemma loop_ending (script : list recv) :
  forall st,
    loop file decode script st
    = (ending script, fold_left (step file decode) (consumed script) st).
Proof.
  induction script as [|[res| |] script IH]; intros st; cbn; auto.
Qed.

Lemma run_fs (bs : list Response) :
  forall st,
    fs (fold_left (step file decode) bs st)
    = (fs st ++ map (Fs.appendFileSync file)
                  (flat_map (lines_of decode) bs))%list.
Proof.
  induction bs as [|res bs IH]; intros st; cbn [fold_left flat_map].
  - now rewrite app_nil_r.
  - now rewrite IH, step_fs, map_app, app_assoc.
Qed.

Lemma run_totalEvents (bs : list Response) :
  forall st,
    totalEvents (fold_left (step file decode) bs st)
    = totalEvents st + sum (map log_count bs).
Proof.
  induction bs as [|res bs IH]; intros st; cbn [fold_left map sum fold_right].
  - lia.
  - rewrite IH, step_totalEvents. unfold sum. lia.
Qed.

Lemma run_lines_errors (bs : list Response) :
  List.length (flat_map (lines_of decode) bs)
  + sum (map (error_count decode) bs)
  = sum (map log_count bs).
Proof.
  induction bs as [|res bs IH]; [reflexivity|].
  cbn [flat_map map sum fold_right]. rewrite length_app.
  pose proof (lines_errors_count res). unfold sum in IH. lia.
Qed.

Lemma loop_rejected (bs : list Response) (rest : list recv) :
  forall st,
    loop file decode (map RecvRes bs ++ RecvReject :: rest)%list st
    = (Fatal, fold_left (step file decode) bs st).
Proof.
  induction bs as [|res bs IH]; intros st; cbn; auto.
Qed.

End LoopFacts.

Lemma append_empty_r (s : string) : s ++ "" = s.
Proof. induction s as [|c s IH]; cbn; [reflexivity | now rewrite IH]. Qed.

Lemma append_associative (a b c : string) : (a ++ b) ++ c = a ++ (b ++ c).
Proof. induction a as [|x a IH]; cbn; [reflexivity | now rewrite IH]. Qed.

(** What the file holds once a header was written and rows appended. *)
Lemma contents_appended (file : string) (rows : list string) :
  forall now : string,
    fold_left (Fs.apply file) (map (Fs.appendFileSync file) rows) (Some now)
    = Some (now ++ joined rows).
Proof.
  induction rows as [|r rows IH]; intros now;
    cbn [map fold_left joined fold_right].
  - now rewrite append_empty_r.
  - cbn [Fs.apply]. rewrite String.eqb_refl, IH.
    now rewrite append_associative.
Qed.

(** ** Rows per batch *)

Lemma filter_keeps_all (A : Type) (f : A -> bool) (l : list A) :
  List.length (filter f l) = List.length l <-> forallb f l = true.
Proof.
  induction l as [|x l IH]; cbn [filter forallb]; [tauto|].
  pose proof (filter_length_le f l) as Hle.
  destruct (f x); cbn [List.length andb].
  - rewrite <- IH. split; intros H; lia.
  - split; [intros H; lia | discriminate].
Qed.

(** C1, as the code has it: one turn of the loop appends one line per log
    of the batch that decodes, in order, and nothing else, so the rows
    appended and the logs that threw add up to the logs of the batch.  The
    loop never reads [topic0]: the rows appended and the logs that threw
    add up to the logs with an accepted topic hash exactly when every log
    of the batch has one, and then the rows appended are those logs less
    the ones that threw. *)
Theorem C1_rows_per_batch :
  forall (file : string)
         (decode : option (list Block) -> Log -> result string)
         (st : RunState) (res : Response),
    fs (step file decode st res)
    = (fs st ++ map (Fs.appendFileSync file) (lines_of decode res))%list
    /\ rows_appended_by file decode st res + error_count decode res
       = log_count res
    /\ (forall accepted : list string,
          matching_count accepted res = log_count res ->
          rows_appended_by file decode st res
          = matching_count accepted res - error_count decode res)
    /\ (forall accepted : list string,
          rows_appended_by file decode st res + error_count decode res
          = matching_count accepted res
          <-> matching_count accepted res = log_count res)
    /\ (forall (accepted : list string) (ls : list Log),
          res_logs res = Some ls ->
          (matching_count accepted res = log_count res
           <-> forallb (accepted_topic accepted) ls = true)).
Proof.
  intros file decode st res.
  pose proof (rows_appended_lines file decode st res) as R.
  pose proof (lines_errors_count decode res) as E.
  split; [apply step_fs|]. split; [lia|]. split; [|split].
  - intros accepted M. lia.
  - intros accepted. split; intros H; lia.
  - intros accepted ls Hls. unfold matching_count, log_count.
    rewrite Hls. apply filter_keeps_all.
Qed.

Lemma C1_rows_per_batch_witness :
  rows_appended_by Transfers.CSV_FILENAME Transfers.decode Transfers.start
    batch_first
  = matching_count [transfer_topic] batch_first
    - error_count Transfers.decode batch_first.
Proof.
  apply (proj1 (proj2 (proj2 (C1_rows_per_batch Transfers.CSV_FILENAME
                                Transfers.decode Transfers.start
                                batch_first)))).
  reflexivity.
Defined.

(** A batch holding an approval log of the token: the log has no accepted
    topic hash and decodes, and its row is appended all the same. *)
Lemma C1_counterexample :
  rows_appended_by Transfers.CSV_FILENAME Transfers.decode Transfers.start
    batch_stray = 1
  /\ matching_count [transfer_topic] batch_stray = 0
  /\ error_count Transfers.decode batch_stray = 0.
Proof. vm_compute. auto. Qed.

(** ** Per-log exceptions *)

(** C7: a log whose processing throws appends nothing, the loop goes on
    with the log after it, and the batch leaves the file and the cursor
    as the same batch without that log would. *)
Theorem C7_failing_log_skipped :
  forall (file : string)
         (decode : option (list Block) -> Log -> result string)
         (bs : option (list Block)) (pre post : list Log) (log : Log)
         (next : Z) (st : RunState) (tr : Fs.trace),
    threw (decode bs log) = true ->
    process_log file decode bs tr log = tr
    /\ process_logs file decode bs (log :: post) tr
       = process_logs file decode bs post tr
    /\ fs (step file decode st (batch (pre ++ log :: post) bs next))
       = fs (step file decode st (batch (pre ++ post) bs next))
    /\ fromBlock (step file decode st (batch (pre ++ log :: post) bs next))
       = fromBlock (step file decode st (batch (pre ++ post) bs next)).
Proof.
  intros file decode bs pre post log next st tr H.
  assert (P : forall tr', process_log file decode bs tr' log = tr').
  { intros tr'. unfold process_log.
    destruct (decode bs log); [discriminate | reflexivity]. }
  split; [apply P|]. split.
  - unfold process_logs. cbn [fold_left]. now rewrite P.
  - split.
    + rewrite !step_fs. unfold lines_of, batch. cbn.
      rewrite !flat_map_app. cbn [flat_map]. unfold line_of at 2.
      destruct (decode bs log); [discriminate | reflexivity].
    + now rewrite !step_fromBlock.
Qed.

Lemma C7_failing_log_skipped_witness :
  process_logs Transfers.CSV_FILENAME Transfers.decode (Some [block_130])
    [log_throwing; log_mixed] []
  = process_logs Transfers.CSV_FILENAME Transfers.decode (Some [block_130])
      [log_mixed] [].
Proof.
  refine (proj1 (proj2 (C7_failing_log_skipped Transfers.CSV_FILENAME
                          Transfers.decode (Some [block_130]) [] [log_mixed]
                          log_throwing 0 Transfers.start [] _))).
  reflexivity.
Defined.

(** ** The cursor *)

Section Cursor.

Variable file : string.
Variable decode : option (list Block) -> Log -> result string.

Lemma non_decreasing_cons (x y : Z) (l : list Z) :
  (x <= y)%Z -> non_decreasing (y :: l) -> non_decreasing (x :: y :: l).
Proof. intros H1 H2. cbn [non_decreasing]. auto. Qed.

Lemma cursor_sequence (bs : list Response) :
  forall st,
    non_decreasing (fromBlock st :: hints bs) ->
    non_decreasing
      (fromBlock st :: map fromBlock (states file decode st bs)).
Proof.
  induction bs as [|res bs IH]; intros st H; [exact I|].
  cbn [states map]. specialize (IH (step file decode st res)).
  rewrite step_fromBlock in *.
  unfold hints in *. cbn [map filter] in H.
  destruct (nextBlock res =? 0)%Z; cbn [negb] in H.
  - apply non_decreasing_cons; [lia | now apply IH].
  - destruct H as [Hle Hrest]. apply non_decreasing_cons; [exact Hle|].
    now apply IH.
Qed.

Lemma cursor_equals_hints (bs : list Response) :
  forall st,
    Forall (fun res => nextBlock res <> 0%Z) bs ->
    map fromBlock (states file decode st bs) = map nextBlock bs.
Proof.
  induction bs as [|res bs IH]; intros st H; [reflexivity|].
  inversion H as [|? ? Hres Hbs]; subst. cbn [states map].
  rewrite (IH _ Hbs), step_fromBlock.
  apply Z.eqb_neq in Hres. now rewrite Hres.
Qed.

End Cursor.

(** C5, as the code has it: a batch sets the cursor to its next-block
    hint when the hint is not 0 and leaves it alone otherwise; the loop
    never compares the two, so the cursors never go down as long as the
    hints the service reports never do. *)
Theorem C5_cursor_follows_hints :
  forall (file : string)
         (decode : option (list Block) -> Log -> result string),
    (forall st res,
       fromBlock (step file decode st res)
       = if (nextBlock res =? 0)%Z then fromBlock st else nextBlock res)
    /\ (forall st bs,
          Forall (fun res => nextBlock res <> 0%Z) bs ->
          map fromBlock (states file decode st bs) = map nextBlock bs)
    /\ (forall st bs,
          non_decreasing (fromBlock st :: hints bs) ->
          non_decreasing
            (fromBlock st :: map fromBlock (states file decode st bs))).
Proof.
  intros file decode. split; [|split].
  - apply step_fromBlock.
  - intros st bs. apply cursor_equals_hints.
  - intros st bs. apply cursor_sequence.
Qed.

Lemma C5_cursor_follows_hints_witness :
  map fromBlock
    (states Transfers.CSV_FILENAME Transfers.decode Transfers.start
       [batch_low; batch_high])
  = [11203300; 11203400]%Z
  /\ non_decreasing
       (fromBlock Transfers.start
        :: map fromBlock
             (states Transfers.CSV_FILENAME Transfers.decode Transfers.start
                [batch_low; batch_high])).
Proof.
  split.
  - apply (proj1 (proj2 (C5_cursor_follows_hints Transfers.CSV_FILENAME
                           Transfers.decode)) Transfers.start
             [batch_low; batch_high]).
    repeat constructor; discriminate.
  - apply (proj2 (proj2 (C5_cursor_follows_hints Transfers.CSV_FILENAME
                           Transfers.decode)) Transfers.start
             [batch_low; batch_high]).
    cbn. lia.
Defined.

(** Two successful batches whose hints go down: the cursor follows them
    down. *)
Lemma C5_counterexample :
  map fromBlock
    (states Transfers.CSV_FILENAME Transfers.decode Transfers.start
       [batch_high; batch_low])
  = [11203400; 11203300]%Z
  /\ (11203300 < 11203400)%Z.
Proof. split; reflexivity. Qed.

(** ** Whole runs *)

Section Runs.

Local Abbreviation T_write :=
  (Fs.writeFileSync Transfers.CSV_FILENAME Transfers.CSV_HEADERS).
Local Abbreviation T_append := (Fs.appendFileSync Transfers.CSV_FILENAME).
Local Abbreviation M_write :=
  (Fs.writeFileSync MintBurn.CSV_FILENAME MintBurn.CSV_HEADERS).
Local Abbreviation M_append := (Fs.appendFileSync MintBurn.CSV_FILENAME).

(** The rows of a run of the transfer tracker. *)
Lemma Transfers_main_run (script : list recv) :
  Transfers.main script
  = (ending script,
     {| fs := T_write
              :: map T_append
                   (flat_map (lines_of Transfers.decode) (consumed script));
        fromBlock :=
          fromBlock (fold_left (step Transfers.CSV_FILENAME Transfers.decode)
                       (consumed script) Transfers.start);
        totalEvents := sum (map log_count (consumed script)) |}).
Proof.
  unfold Transfers.main. rewrite loop_ending. f_equal.
  pose proof (run_fs Transfers.CSV_FILENAME Transfers.decode
                (consumed script) Transfers.start) as F.
  pose proof (run_totalEvents Transfers.CSV_FILENAME Transfers.decode
                (consumed script) Transfers.start) as E.
  destruct (fold_left _ (consumed script) Transfers.start) as [f b t].
  cbn [fs totalEvents fromBlock] in *. subst f t. reflexivity.
Qed.

Lemma processEvents_run (eventType : string) (script : list recv)
  (tr : Fs.trace) :
  exists st,
    MintBurn.processEvents eventType script tr = (ending script, st)
    /\ fs st
       = (tr ++ map M_append
                  (flat_map (lines_of (MintBurn.decode eventType))
                     (consumed script)))%list
    /\ totalEvents st = sum (map log_count (consumed script)).
Proof.
  unfold MintBurn.processEvents. rewrite loop_ending.
  eexists. split; [reflexivity|]. split.
  - now rewrite run_fs.
  - now rewrite run_totalEvents.
Qed.

(** The rows of a run of the mint/burn tracker: those of the mint pass,
    then those of the burn pass when there is one. *)
Lemma MintBurn_main_run (mint_script burn_script : list recv) :
  let r := MintBurn.main mint_script burn_script in
  MintBurn.calls r
  = M_write
    :: map M_append
         (flat_map (lines_of (MintBurn.decode "mint")) (consumed mint_script)
          ++ flat_map (lines_of (MintBurn.decode "burn"))
               (second_pass mint_script burn_script))%list
  /\ MintBurn.mintEvents r = sum (map log_count (consumed mint_script))
  /\ MintBurn.burnEvents r
     = sum (map log_count (second_pass mint_script burn_script))
  /\ MintBurn.ended r
     = match ending mint_script with
       | Completed => ending burn_script
       | o => o
       end.
Proof.
  unfold MintBurn.main, second_pass.
  destruct (processEvents_run "mint" mint_script [M_write])
    as (st1 & E1 & F1 & T1).
  rewrite E1.
  destruct (ending mint_script).
  - destruct (processEvents_run "burn" burn_script (fs st1))
      as (st2 & E2 & F2 & T2).
    rewrite E2. cbn [MintBurn.calls MintBurn.mintEvents MintBurn.burnEvents
                       MintBurn.ended].
    rewrite F2, F1, map_app. cbn [app]. auto.
  - cbn [MintBurn.calls MintBurn.mintEvents MintBurn.burnEvents
           MintBurn.ended flat_map map sum fold_right].
    rewrite F1, app_nil_r. cbn [app]. auto.
  - cbn [MintBurn.calls MintBurn.mintEvents MintBurn.burnEvents
           MintBurn.ended flat_map map sum fold_right].
    rewrite F1, app_nil_r. cbn [app]. auto.
Qed.

Lemma no_write_among_appends (file : string) (rows : list string) :
  filter Fs.is_write (map (Fs.appendFileSync file) rows) = [].
Proof. induction rows as [|r rows IH]; [reflexivity | exact IH]. Qed.

Lemma consumed_before_reject (bs : list Response) (rest : list recv) :
  consumed (map RecvRes bs ++ RecvReject :: rest) = bs
  /\ ending (map RecvRes bs ++ RecvReject :: rest) = Fatal.
Proof.
  induction bs as [|res bs [IH1 IH2]]; cbn; [auto|]. now rewrite IH1.
Qed.

End Runs.

(** C6: when [recv] rejects, the answers after it are never asked for,
    the run ends through [main().catch] with status 1, and the file holds
    the header and the rows of the batches received before, whichever
    script runs and whichever pass the rejection falls in. *)
Theorem C6_fetch_error_is_fatal :
  (forall (bs : list Response) (rest : list recv),
     let run := Transfers.main (map RecvRes bs ++ RecvReject :: rest) in
     let rows := flat_map (lines_of Transfers.decode) bs in
     fst run = Fatal
     /\ exit_status (fst run) = Some 1%Z
     /\ fs (snd run)
        = Fs.writeFileSync Transfers.CSV_FILENAME Transfers.CSV_HEADERS
          :: map (Fs.appendFileSync Transfers.CSV_FILENAME) rows
     /\ Fs.contents Transfers.CSV_FILENAME (fs (snd run))
        = Some (Transfers.CSV_HEADERS ++ joined rows))
  /\ (forall (bs : list Response) (rest burn_script : list recv),
        let r := MintBurn.main (map RecvRes bs ++ RecvReject :: rest)
                   burn_script in
        let rows := flat_map (lines_of (MintBurn.decode "mint")) bs in
        MintBurn.ended r = Fatal
        /\ exit_status (MintBurn.ended r) = Some 1%Z
        /\ MintBurn.calls r
           = Fs.writeFileSync MintBurn.CSV_FILENAME MintBurn.CSV_HEADERS
             :: map (Fs.appendFileSync MintBurn.CSV_FILENAME) rows
        /\ Fs.contents MintBurn.CSV_FILENAME (MintBurn.calls r)
           = Some (MintBurn.CSV_HEADERS ++ joined rows))
  /\ (forall (mint_script : list recv) (bs : list Response)
             (rest : list recv),
        ending mint_script = Completed ->
        let r := MintBurn.main mint_script
                   (map RecvRes bs ++ RecvReject :: rest) in
        let rows :=
          (flat_map (lines_of (MintBurn.decode "mint")) (consumed mint_script)
           ++ flat_map (lines_of (MintBurn.decode "burn")) bs)%list in
        MintBurn.ended r = Fatal
        /\ exit_status (MintBurn.ended r) = Some 1%Z
        /\ MintBurn.calls r
           = Fs.writeFileSync MintBurn.CSV_FILENAME MintBurn.CSV_HEADERS
             :: map (Fs.appendFileSync MintBurn.CSV_FILENAME) rows
        /\ Fs.contents MintBurn.CSV_FILENAME (MintBurn.calls r)
           = Some (MintBurn.CSV_HEADERS ++ joined rows)).
Proof.
  split; [|split].
  - intros bs rest run rows. subst run rows.
    rewrite Transfers_main_run.
    destruct (consumed_before_reject bs rest) as [-> ->].
    cbn [fst snd fs exit_status]. repeat split.
    unfold Fs.contents. cbn [fold_left Fs.apply].
    rewrite String.eqb_refl. apply contents_appended.
  - intros bs rest burn_script r rows. subst r rows.
    destruct (MintBurn_main_run (map RecvRes bs ++ RecvReject :: rest)
                burn_script) as (C & _ & _ & E).
    unfold second_pass in C.
    destruct (consumed_before_reject bs rest) as [Hc He].
    rewrite Hc, He in C. rewrite He in E. cbn [flat_map] in C.
    rewrite app_nil_r in C. rewrite E, C. repeat split.
    unfold Fs.contents. cbn [fold_left Fs.apply].
    rewrite String.eqb_refl. apply contents_appended.
  - intros mint_script bs rest Hm r rows. subst r rows.
    destruct (MintBurn_main_run mint_script
                (map RecvRes bs ++ RecvReject :: rest)) as (C & _ & _ & E).
    unfold second_pass in C. rewrite Hm in C, E.
    destruct (consumed_before_reject bs rest) as [Hc He].
    rewrite Hc in C. rewrite He in E. rewrite E, C. repeat split.
    unfold Fs.contents. cbn [fold_left Fs.apply].
    rewrite String.eqb_refl. apply contents_appended.
Qed.

Lemma C6_fetch_error_is_fatal_witness :
  MintBurn.ended
    (MintBurn.main [RecvRes batch_first; RecvNull]
       (map RecvRes [batch_first] ++ [RecvReject; RecvRes batch_high]))
  = Fatal
  /\ List.length
       (MintBurn.calls
          (MintBurn.main [RecvRes batch_first; RecvNull]
             (map RecvRes [batch_first] ++ [RecvReject; RecvRes batch_high])))
     = 5.
Proof.
  pose proof (proj2 (proj2 C6_fetch_error_is_fatal)
                [RecvRes batch_first; RecvNull] [batch_first]
                [RecvRes batch_high] eq_refl) as (E & _ & C & _).
  split; [exact E|]. rewrite C. reflexivity.
Defined.

(** The fault scenario of the specification: the first batch holds three
    logs of which the second throws, the second fetch rejects. *)
Example fault_scenario :
  let run := Transfers.main [RecvRes batch_first; RecvReject] in
  exit_status (fst run) = Some 1%Z
  /\ Fs.contents Transfers.CSV_FILENAME (fs (snd run))
     = Some (Transfers.CSV_HEADERS
             ++ csv_line ["11203130"; "1719000000"; "0x01";
                          address_string holder_a; address_string holder_b;
                          "100"]
             ++ csv_line ["11203130"; "1719000000"; "0x02";
                          address_string holder_a; address_string holder_b;
                          "100"]).
Proof. vm_compute. auto. Qed.

(** The end-to-end scenario: two logs, no log, then [null]. *)
Example end_to_end_scenario :
  let run := Transfers.main
               [RecvRes (batch [log_named; log_mixed] (Some [block_130])
                           11203200);
                RecvRes batch_high; RecvNull] in
  exit_status (fst run) = Some 0%Z
  /\ List.length (fs (snd run)) = 3
  /\ totalEvents (snd run) = 2
  /\ fromBlock (snd run) = 11203400%Z.
Proof. vm_compute. auto. Qed.

(** C9: the calls of a run are one [writeFileSync] of the header followed
    by [appendFileSync] calls only, one per row; in the mint/burn tracker
    the rows of the burn pass follow those of the mint pass after the one
    header. *)
Theorem C9_header_written_once :
  (forall script : list recv,
     let tr := fs (snd (Transfers.main script)) in
     tr = Fs.writeFileSync Transfers.CSV_FILENAME Transfers.CSV_HEADERS
          :: map (Fs.appendFileSync Transfers.CSV_FILENAME)
               (flat_map (lines_of Transfers.decode) (consumed script))
     /\ filter Fs.is_write tr
        = [Fs.writeFileSync Transfers.CSV_FILENAME Transfers.CSV_HEADERS])
  /\ (forall mint_script burn_script : list recv,
        let tr := MintBurn.calls (MintBurn.main mint_script burn_script) in
        tr = Fs.writeFileSync MintBurn.CSV_FILENAME MintBurn.CSV_HEADERS
             :: map (Fs.appendFileSync MintBurn.CSV_FILENAME)
                  (flat_map (lines_of (MintBurn.decode "mint"))
                     (consumed mint_script)
                   ++ flat_map (lines_of (MintBurn.decode "burn"))
                        (second_pass mint_script burn_script))%list
        /\ filter Fs.is_write tr
           = [Fs.writeFileSync MintBurn.CSV_FILENAME MintBurn.CSV_HEADERS]).
Proof.
  split.
  - intros script tr. subst tr. rewrite Transfers_main_run. cbn [snd fs].
    split; [reflexivity|]. cbn [filter Fs.is_write].
    now rewrite no_write_among_appends.
  - intros m b tr. subst tr.
    destruct (MintBurn_main_run m b) as (C & _). rewrite C.
    split; [reflexivity|]. cbn [filter Fs.is_write].
    now rewrite no_write_among_appends.
Qed.

(** C10: each batch adds its full log count to [totalEvents], whether or
    not its logs decode; over a run the rows appended and the logs that
    threw add up to the events counted, so the rows never exceed the
    count and reach it exactly when no log threw. *)
Theorem C10_counter_bounds_rows :
  (forall file decode st res,
     totalEvents (step file decode st res) = totalEvents st + log_count res)
  /\ (forall script : list recv,
        let st := snd (Transfers.main script) in
        let errors := total_errors Transfers.decode (consumed script) in
        appended_rows (fs st) + errors = totalEvents st
        /\ appended_rows (fs st) <= totalEvents st
        /\ (appended_rows (fs st) = totalEvents st <-> errors = 0))
  /\ (forall mint_script burn_script : list recv,
        let r := MintBurn.main mint_script burn_script in
        let errors :=
          total_errors (MintBurn.decode "mint") (consumed mint_script)
          + total_errors (MintBurn.decode "burn")
              (second_pass mint_script burn_script) in
        let counted := MintBurn.mintEvents r + MintBurn.burnEvents r in
        appended_rows (MintBurn.calls r) + errors = counted
        /\ appended_rows (MintBurn.calls r) <= counted
        /\ (appended_rows (MintBurn.calls r) = counted <-> errors = 0)).
Proof.
  split; [|split].
  - intros. apply step_totalEvents.
  - intros script st errors. subst st errors.
    rewrite Transfers_main_run. cbn [snd fs totalEvents].
    unfold appended_rows, total_errors. cbn [List.length].
    rewrite length_map.
    pose proof (run_lines_errors Transfers.decode (consumed script)). lia.
  - intros m b r errors counted. subst errors counted r.
    destruct (MintBurn_main_run m b) as (C & M & B & _).
    rewrite C, M, B. unfold appended_rows, total_errors. cbn [List.length].
    rewrite length_map, length_app.
    pose proof (run_lines_errors (MintBurn.decode "mint") (consumed m)).
    pose proof (run_lines_errors (MintBurn.decode "burn") (second_pass m b)).
    lia.
Qed.

(** ** Timestamps *)

Section Timestamps.

Lemma strict_eq_true (a b : jsval) : strict_eq a b = true -> a = b.
Proof.
  destruct a, b; cbn; try discriminate; intros H; try reflexivity.
  - f_equal. now apply Bool.eqb_prop.
  - f_equal. now apply Z.eqb_eq.
  - f_equal. now apply String.eqb_eq.
Qed.

Lemma find_block_found (bs : option (list Block)) (bn : jsval) (b : Block) :
  find_block bs bn = Some b ->
  exists l, bs = Some l /\ In b l /\ number b = bn.
Proof.
  destruct bs as [l|]; cbn; [|discriminate].
  intros H. apply find_some in H as [Hin Heq].
  exists l. split; [reflexivity|]. split; [exact Hin|].
  now apply strict_eq_true.
Qed.

Lemma find_block_none (bs : option (list Block)) (bn : jsval) :
  (forall l b, bs = Some l -> In b l -> strict_eq (number b) bn = false) ->
  find_block bs bn = None.
Proof.
  intros H. destruct bs as [l|]; cbn; [|reflexivity].
  destruct (find _ l) as [b|] eqn:E; [|reflexivity].
  apply find_some in E as [Hin Heq].
  now rewrite (H l b eq_refl Hin) in Heq.
Qed.

(** The timestamp field, as both scripts compute it. *)
Lemma timestamp_field (bs : option (list Block)) (log : Log) :
  let field :=
    ToString (timestamp_of (find_block bs (or_empty (blockNumber log)))) in
  (field <> "" ->
   exists l b, bs = Some l /\ In b l
               /\ number b = or_empty (blockNumber log))
  /\ ((forall l b, bs = Some l -> In b l ->
         strict_eq (number b) (or_empty (blockNumber log)) = false) ->
      field = "").
Proof.
  intros field. subst field. split.
  - destruct (find_block bs (or_empty (blockNumber log))) as [b|] eqn:E.
    + intros _. destruct (find_block_found _ _ _ E) as (l & H1 & H2 & H3).
      now exists l, b.
    + intros H. now elim H.
  - intros H. now rewrite (find_block_none _ _ H).
Qed.

Lemma find_first (A : Type) (f : A -> bool) (pre post : list A) (x : A) :
  (forall y, In y pre -> f y = false) -> f x = true ->
  find f (pre ++ x :: post)%list = Some x.
Proof.
  intros Hpre Hx. induction pre as [|y pre IH]; cbn [app find].
  - now rewrite Hx.
  - rewrite (Hpre y (or_introl eq_refl)). apply IH.
    intros z Hz. apply Hpre. now right.
Qed.

Lemma find_single (A : Type) (f : A -> bool) (x : A) :
  f x = true -> find f [x] = Some x.
Proof. intros H. cbn. now rewrite H. Qed.

Lemma Z_toString_nonempty (z : Z) : Z_toString z <> "".
Proof.
  unfold Z_toString. destruct z as [|p|p]; cbn; try discriminate.
  pose proof (DecimalPos.Unsigned.to_uint_nonnil p) as H.
  destruct (Pos.to_uint p); [congruence | discriminate ..].
Qed.

(** The timestamp field when the first block with the log's number
    carries a non-zero timestamp. *)
Lemma timestamp_field_found (pre post : list Block) (b : Block) (log : Log)
  (t : Z) :
  truthy (blockNumber log) = true ->
  (forall b', In b' pre -> strict_eq (number b') (blockNumber log) = false) ->
  strict_eq (number b) (blockNumber log) = true ->
  timestamp b = JNum t -> t <> 0%Z ->
  ToString (timestamp_of (find_block (Some (pre ++ b :: post)%list)
                            (or_empty (blockNumber log))))
  = Z_toString t.
Proof.
  intros Hn Hpre Hb Ht Hz. unfold or_empty at 1. rewrite Hn.
  cbn [find_block]. rewrite (find_first _ _ pre post b Hpre Hb).
  unfold timestamp_of, or_empty. rewrite Ht. cbn [truthy].
  apply Z.eqb_neq in Hz. now rewrite Hz.
Qed.

End Timestamps.

(** C8, as the code has it, for the rows of both scripts.  Only if: the
    timestamp field of a row is non-empty only if the batch of the log
    holds a block whose number is the block number the log is looked up
    under, which is the log's blockNumber whenever that is truthy.  If:
    when the log has a truthy blockNumber and the first block of the
    batch with that number carries a non-zero timestamp, the field is
    that timestamp in decimal, and not empty.  When the batch holds no
    such block the field is empty, and the blocks of the batch have no
    part in whether the row is emitted, which carries the block number
    either way. *)
Theorem C8_timestamp_join :
  forall (bs : option (list Block)) (log : Log),
    (forall r, Transfers.decode_row bs log = Ok r ->
       (Transfers.row_timestamp r <> "" ->
        exists l b, bs = Some l /\ In b l
                    /\ number b = or_empty (blockNumber log))
       /\ ((forall l b, bs = Some l -> In b l ->
              strict_eq (number b) (or_empty (blockNumber log)) = false) ->
           Transfers.row_timestamp r = "")
       /\ Transfers.row_blockNumber r = ToString (or_empty (blockNumber log)))
    /\ (forall bs', threw (Transfers.decode_row bs log)
                    = threw (Transfers.decode_row bs' log))
    /\ (forall eventType r, MintBurn.decode_row eventType bs log = Ok r ->
          (MintBurn.row_timestamp r <> "" ->
           exists l b, bs = Some l /\ In b l
                       /\ number b = or_empty (blockNumber log))
          /\ ((forall l b, bs = Some l -> In b l ->
                 strict_eq (number b) (or_empty (blockNumber log)) = false) ->
              MintBurn.row_timestamp r = "")
          /\ MintBurn.row_blockNumber r
             = ToString (or_empty (blockNumber log)))
    /\ (forall eventType bs',
          threw (MintBurn.decode_row eventType bs log)
          = threw (MintBurn.decode_row eventType bs' log))
    /\ (truthy (blockNumber log) = true ->
        or_empty (blockNumber log) = blockNumber log)
    /\ (forall (pre post : list Block) (b : Block) (t : Z)
               (a : string * string),
          bs = Some (pre ++ b :: post)%list ->
          truthy (blockNumber log) = true ->
          (forall b', In b' pre ->
             strict_eq (number b') (blockNumber log) = false) ->
          strict_eq (number b) (blockNumber log) = true ->
          timestamp b = JNum t -> t <> 0%Z ->
          extract_addresses log = Ok a ->
          (exists r,
             Transfers.decode_row bs log = Ok r
             /\ Transfers.row_timestamp r = Z_toString t
             /\ Transfers.row_timestamp r <> ""
             /\ Transfers.row_blockNumber r = ToString (blockNumber log))
          /\ (forall eventType, exists r,
                MintBurn.decode_row eventType bs log = Ok r
                /\ MintBurn.row_timestamp r = Z_toString t
                /\ MintBurn.row_timestamp r <> ""
                /\ MintBurn.row_blockNumber r = ToString (blockNumber log))).
Proof.
  intros bs log. destruct (timestamp_field bs log) as [T1 T2].
  split; [|split; [|split; [|split; [|split]]]].
  - unfold Transfers.decode_row. intros r.
    destruct (extract_addresses log); cbn [bind]; [|discriminate].
    intros [= <-]. cbn [Transfers.row_timestamp Transfers.row_blockNumber].
    auto.
  - intros bs'. unfold Transfers.decode_row.
    now destruct (extract_addresses log).
  - unfold MintBurn.decode_row. intros ty r.
    destruct (extract_addresses log); cbn [bind]; [|discriminate].
    intros [= <-]. cbn [MintBurn.row_timestamp MintBurn.row_blockNumber].
    auto.
  - intros ty bs'. unfold MintBurn.decode_row.
    now destruct (extract_addresses log).
  - intros H. unfold or_empty. now rewrite H.
  - intros pre post b t a -> Hn Hpre Hb Ht Hz Ha.
    pose proof (timestamp_field_found pre post b log t Hn Hpre Hb Ht Hz)
      as F.
    assert (E : or_empty (blockNumber log) = blockNumber log)
      by (unfold or_empty; now rewrite Hn).
    split.
    + unfold Transfers.decode_row. rewrite Ha. cbn [bind].
      eexists. split; [reflexivity|].
      cbn [Transfers.row_timestamp Transfers.row_blockNumber].
      rewrite F, E. split; [reflexivity|].
      split; [apply Z_toString_nonempty | reflexivity].
    + intros ty. unfold MintBurn.decode_row. rewrite Ha. cbn [bind].
      eexists. split; [reflexivity|].
      cbn [MintBurn.row_timestamp MintBurn.row_blockNumber].
      rewrite F, E. split; [reflexivity|].
      split; [apply Z_toString_nonempty | reflexivity].
Qed.

Lemma C8_timestamp_join_witness :
  (exists l b, Some [block_130] = Some l /\ In b l
               /\ number b = or_empty (blockNumber log_named))
  /\ (exists r,
        Transfers.decode_row (Some ([] ++ block_130 :: [])%list) log_named
        = Ok r
        /\ Transfers.row_timestamp r = Z_toString 1719000000
        /\ Transfers.row_timestamp r <> ""
        /\ Transfers.row_blockNumber r = ToString (blockNumber log_named)).
Proof.
  split.
  - refine (proj1 (proj1 (C8_timestamp_join (Some [block_130]) log_named)
                     _ eq_refl) _).
    discriminate.
  - refine (proj1 (proj2 (proj2 (proj2 (proj2 (proj2
              (C8_timestamp_join (Some ([] ++ block_130 :: [])%list)
                 log_named)))))
              [] [] block_130 1719000000%Z
              (address_string holder_a, address_string holder_b)
              eq_refl eq_refl _ eq_refl eq_refl _ eq_refl)).
    + intros b' [].
    + discriminate.
Defined.

(** The block of the log is in the batch, with timestamp 0: the row is
    written with an empty timestamp field. *)
Lemma C8_counterexample :
  Transfers.decode_row (Some [block_130_epoch]) log_named
  = Ok {| Transfers.row_blockNumber := "11203130";
          Transfers.row_timestamp := "";
          Transfers.row_txHash := "0x01";
          Transfers.row_fromAddress := address_string holder_a;
          Transfers.row_toAddress := address_string holder_b;
          Transfers.row_amount := "100" |}
  /\ In block_130_epoch [block_130_epoch]
  /\ number block_130_epoch = blockNumber log_named.
Proof. vm_compute. auto. Qed.

Import Debug Views MoreSamples.

(** * Further properties *)

(** ** What an amount can be *)

Section AmountShape.

Lemma drop_white_tail (c : ascii) (p r : list ascii) :
  is_white c = false ->
  exists r', drop_white (r ++ c :: p) = (r' ++ c :: p)%list.
Proof.
  intros Hc. induction r as [|a r IH].
  - exists []. now apply drop_white_head.
  - cbn [app drop_white]. destruct (is_white a).
    + exact IH.
    + now exists (a :: r).
Qed.

(** Trimming leaves a prefix alone whose first and last characters are
    no white space. *)
Lemma trim_keeps (c d : ascii) (q l : list ascii) :
  is_white c = false -> is_white d = false ->
  exists l', trim (c :: q ++ d :: l) = (c :: q ++ d :: l')%list.
Proof.
  intros Hc Hd. unfold trim. rewrite (drop_white_head c _ Hc).
  cbn [rev]. rewrite rev_app_distr. cbn [rev].
  rewrite <- !app_assoc. cbn [app].
  destruct (drop_white_tail d (rev q ++ [c]) (rev l) Hd) as [r' ->].
  exists (rev r'). rewrite rev_app_distr. cbn [rev].
  rewrite rev_app_distr, rev_involutive. cbn [rev app].
  now rewrite <- !app_assoc.
Qed.

(** A literal that starts with [0x] is read as hex or not at all: the
    signed decimal branch is out of reach. *)
Lemma BigInt_0x_unsigned (clean : string) :
  BigInt ("0x" ++ clean) = Throw SyntaxError
  \/ exists n : N, BigInt ("0x" ++ clean) = Ok (Z.of_N n).
Proof.
  unfold BigInt. cbn [append list_ascii_of_string].
  destruct (trim_keeps "0" "x" [] (list_ascii_of_string clean)
              eq_refl eq_refl) as [l' E].
  cbn [app] in E. rewrite E. cbn -[parse_digits].
  destruct (parse_digits 16 l') as [n|]; cbn [of_option].
  - right. now exists n.
  - now left.
Qed.

End AmountShape.

(** X1: whatever the [data] property holds, the amount of a transfer row
    and both amounts of a mint/burn row are unsigned decimal numerals: no
    sign, no hex digit and no empty field reaches the file. *)
Theorem X1_amounts_are_decimal :
  forall data : jsval,
    (exists n : N, Transfers.amount_of data = decimal n)
    /\ (exists n0 n1 : N,
          MintBurn.amounts_of data = (decimal n0, decimal n1)).
Proof.
  intros data. split.
  - unfold Transfers.amount_of.
    destruct (truthy data); [|now exists 0%N].
    destruct (cleanData data) as [clean|e]; cbn [bind try_catch];
      [|now exists 0%N].
    destruct (BigInt_0x_unsigned clean) as [-> | [n ->]];
      cbn [bind try_catch]; [now exists 0%N|].
    exists n. apply toString_of_N.
  - unfold MintBurn.amounts_of.
    destruct (truthy data); [|now exists 0%N, 0%N].
    destruct (cleanData data) as [clean|e]; cbn [bind try_catch];
      [|now exists 0%N, 0%N].
    destruct (128 <=? String.length clean)%nat; cbn [try_catch];
      [|now exists 0%N, 0%N].
    destruct (BigInt_0x_unsigned (str_slice_range 0 64 clean))
      as [-> | [n0 ->]]; cbn [bind try_catch]; [now exists 0%N, 0%N|].
    destruct (BigInt_0x_unsigned (str_slice_range 64 128 clean))
      as [-> | [n1 ->]]; cbn [bind try_catch]; [now exists 0%N, 0%N|].
    exists n0, n1. now rewrite !toString_of_N.
Qed.

(** ** Payloads as bytes *)

Section PayloadBytes.

Lemma hex_of_bytes_nonempty (bs : list byte) :
  bs <> [] -> hex_of_bytes bs <> "".
Proof.
  intros H E. apply (f_equal String.length) in E.
  unfold hex_of_bytes in E.
  rewrite <- list_ascii_length, list_ascii_of_string_of_list_ascii in E.
  rewrite hex_chars_length in E. destruct bs; [congruence | discriminate].
Qed.

Lemma hex_of_bytes_app (a b : list byte) :
  hex_of_bytes (a ++ b) = hex_of_bytes a ++ hex_of_bytes b.
Proof.
  unfold hex_of_bytes. rewrite flat_map_app.
  generalize (flat_map hex_of_byte a) as l. intros l.
  induction l as [|c l IH]; cbn; [reflexivity | now rewrite IH].
Qed.

Lemma hex_of_bytes_length (bs : list byte) :
  String.length (hex_of_bytes bs) = 2 * List.length bs.
Proof.
  unfold hex_of_bytes.
  now rewrite <- list_ascii_length, list_ascii_of_string_of_list_ascii,
    hex_chars_length.
Qed.

End PayloadBytes.

(** X2: the amount of a transfer row is the big-endian unsigned integer
    the payload bytes hold, in decimal, for a payload of any length
    above 0 written as [0x] and two lower-case hex digits per byte. *)
Theorem X2_amount_of_payload_bytes :
  forall bs : list byte,
    bs <> [] ->
    Transfers.amount_of (JStr ("0x" ++ hex_of_bytes bs))
    = decimal (bytes_value bs).
Proof.
  intros bs H. rewrite <- hex_value_of_bytes.
  apply (amount_of_hex (hex_of_bytes bs));
    [now apply hex_of_bytes_nonempty | apply all_hex_of_bytes
     | apply truthy_0x | apply cleanData_prefixed].
Qed.

Lemma X2_amount_of_payload_bytes_witness :
  Transfers.amount_of (JStr ("0x" ++ hex_of_bytes [x01; x00]))
  = decimal (bytes_value [x01; x00]).
Proof. apply X2_amount_of_payload_bytes. discriminate. Defined.

(** X3: the amounts of a mint/burn row are the first and the second
    32-byte word of the payload, as big-endian unsigned integers in
    decimal; the bytes after the second word have no part in them. *)
Theorem X3_amounts_of_payload_words :
  forall w0 w1 rest : list byte,
    List.length w0 = 32 -> List.length w1 = 32 ->
    MintBurn.amounts_of (JStr ("0x" ++ hex_of_bytes (w0 ++ w1 ++ rest)))
    = (decimal (bytes_value w0), decimal (bytes_value w1)).
Proof.
  intros w0 w1 rest L0 L1. rewrite !hex_of_bytes_app.
  rewrite <- !hex_value_of_bytes.
  apply (amounts_of_words (hex_of_bytes w0) (hex_of_bytes w1)
           (hex_of_bytes rest));
    try apply all_hex_of_bytes;
    try (rewrite hex_of_bytes_length; lia).
  - apply truthy_0x.
  - apply cleanData_prefixed.
Qed.

Lemma X3_amounts_of_payload_words_witness :
  MintBurn.amounts_of
    (JStr ("0x" ++ hex_of_bytes ((repeat x00 31 ++ [x32])
                                 ++ (repeat x00 31 ++ [x4b])
                                 ++ [xde; xad])))
  = (decimal (bytes_value (repeat x00 31 ++ [x32])),
     decimal (bytes_value (repeat x00 31 ++ [x4b]))).
Proof. apply X3_amounts_of_payload_words; reflexivity. Defined.

(** ** Payloads that do not parse *)

Section BadPayloads.

Lemma BigInt_0x0X (s : string) :
  BigInt ("0x" ++ "0X" ++ s) = Throw SyntaxError.
Proof.
  unfold BigInt. cbn [append list_ascii_of_string].
  destruct (trim_keeps "0" "X" ["x"%char; "0"%char]
              (list_ascii_of_string s) eq_refl eq_refl) as [l' E].
  cbn [app] in E. rewrite E. reflexivity.
Qed.

Lemma cleanData_upper (s : string) :
  cleanData (JStr ("0X" ++ s)) = Ok ("0X" ++ s).
Proof.
  unfold cleanData. cbn [append prefix].
  destruct (ascii_dec "0" "0"); [|congruence].
  destruct (ascii_dec "x" "X"); [discriminate | reflexivity].
Qed.

End BadPayloads.

(** X4: the prefix test is case-sensitive.  A payload written with an
    upper-case [0X] prefix keeps the prefix, fails to parse, and gives
    ["0"] for the amount of a transfer row and for both amounts of a
    mint/burn row, whatever follows the prefix. *)
Theorem X4_upper_case_prefix :
  forall s : string,
    Transfers.amount_of (JStr ("0X" ++ s)) = "0"
    /\ MintBurn.amounts_of (JStr ("0X" ++ s)) = ("0", "0").
Proof.
  intros s. split.
  - unfold Transfers.amount_of.
    replace (truthy (JStr ("0X" ++ s))) with true by reflexivity.
    rewrite cleanData_upper. cbn [bind].
    now rewrite BigInt_0x0X.
  - unfold MintBurn.amounts_of.
    replace (truthy (JStr ("0X" ++ s))) with true by reflexivity.
    rewrite cleanData_upper. cbn [bind].
    destruct (128 <=? String.length ("0X" ++ s))%nat; [|reflexivity].
    assert (E : str_slice_range 0 64 ("0X" ++ s)
                = "0X" ++ string_of_list_ascii
                            (firstn 62 (list_ascii_of_string s)))
      by reflexivity.
    now rewrite E, BigInt_0x0X.
Qed.

(** X5: the two amounts of a mint/burn row stand or fall together.  When
    either of the first two words of the payload fails to parse, both
    amounts are ["0"], also the one whose word is well-formed. *)
Theorem X5_amounts_all_or_nothing :
  forall w0 w1 rest : string,
    String.length w0 = 64 -> String.length w1 = 64 ->
    threw (BigInt ("0x" ++ w0)) || threw (BigInt ("0x" ++ w1)) = true ->
    MintBurn.amounts_of (JStr ("0x" ++ w0 ++ w1 ++ rest)) = ("0", "0").
Proof.
  intros w0 w1 rest L0 L1 H. unfold MintBurn.amounts_of.
  rewrite truthy_0x, cleanData_prefixed. cbn [bind].
  assert (Hlen : (128 <=? String.length (w0 ++ w1 ++ rest))%nat = true).
  { apply Nat.leb_le. rewrite !string_length_app. lia. }
  rewrite Hlen.
  pose proof (str_slice_first w0 (w1 ++ rest)) as S0.
  pose proof (str_slice_second w0 w1 rest) as S1.
  rewrite L0 in S0, S1. rewrite L1 in S1. cbn [Nat.add] in S1.
  rewrite S0, S1.
  destruct (BigInt ("0x" ++ w0)); cbn [bind try_catch]; [|reflexivity].
  destruct (BigInt ("0x" ++ w1)); cbn [bind try_catch]; [|reflexivity].
  discriminate.
Qed.

Lemma X5_amounts_all_or_nothing_witness :
  MintBurn.amounts_of (JStr ("0x" ++ word_ff ++ word_bad ++ ""))
  = ("0", "0").
Proof. apply X5_amounts_all_or_nothing; reflexivity. Defined.

(** ** Which logs are skipped *)

Section Skipping.

Lemma named_slot_view (slot : jsval) :
  named_slot slot "unknown"
  = if truthy slot
    then if sliceable slot then Ok (address_text (Some slot))
         else Throw TypeError
    else Ok "unknown".
Proof.
  unfold named_slot. destruct (truthy slot); [|reflexivity].
  destruct slot; reflexivity.
Qed.

Lemma array_slot_view (tps : jsval) (i : nat) :
  array_slot tps i "unknown"
  = if isArray tps && length_gt tps i
    then if sliceable (index tps i)
         then Ok (address_text (Some (index tps i)))
         else Throw TypeError
    else Ok "unknown".
Proof.
  unfold array_slot.
  replace ("unknown" =? "unknown") with true by reflexivity.
  destruct tps; cbn [isArray andb]; rewrite ?andb_false_r; try reflexivity.
  cbn [truthy andb]. destruct (length_gt (JArr l) i); [|reflexivity].
  destruct (index (JArr l) i); reflexivity.
Qed.

Lemma array_slot_kept (tps : jsval) (i : nat) (v : jsval) :
  sliceable v = true ->
  array_slot tps i (address_text (Some v)) = Ok (address_text (Some v)).
Proof. destruct v; try discriminate; reflexivity. Qed.

(** Address extraction, field by field. *)
Lemma extract_addresses_view (log : Log) :
  extract_addresses log
  = if skipped log then Throw TypeError
    else Ok (address_text (read_from (topic1 log) 1 (topics log)),
             address_text (read_from (topic2 log) 2 (topics log))).
Proof.
  unfold extract_addresses, skipped, read_from.
  rewrite !named_slot_view.
  destruct (truthy (topic1 log)), (truthy (topic2 log)); cbn [readable].
  - destruct (sliceable (topic1 log)) eqn:S1; cbn [bind andb negb];
      [|reflexivity].
    destruct (sliceable (topic2 log)) eqn:S2; cbn [bind andb negb];
      [|reflexivity].
    now rewrite !array_slot_kept.
  - destruct (sliceable (topic1 log)) eqn:S1; cbn [bind andb negb];
      [|reflexivity].
    rewrite array_slot_kept by assumption. cbn [bind].
    rewrite array_slot_view.
    destruct (isArray (topics log) && length_gt (topics log) 2);
      cbn [readable]; [|reflexivity].
    now destruct (sliceable (index (topics log) 2)).
  - destruct (sliceable (topic2 log)) eqn:S2; cbn [bind].
    + rewrite array_slot_view.
      destruct (isArray (topics log) && length_gt (topics log) 1);
        cbn [bind readable andb negb].
      * destruct (sliceable (index (topics log) 1)); cbn [bind andb negb];
          [|reflexivity].
        now rewrite array_slot_kept.
      * now rewrite array_slot_kept.
    + now rewrite andb_false_r.
  - cbn [bind]. rewrite !array_slot_view.
    destruct (isArray (topics log) && length_gt (topics log) 1);
      cbn [bind readable andb negb].
    + destruct (sliceable (index (topics log) 1)); cbn [bind andb negb];
        [|reflexivity].
      destruct (isArray (topics log) && length_gt (topics log) 2);
        cbn [bind readable]; [|reflexivity].
      now destruct (sliceable (index (topics log) 2)).
    + destruct (isArray (topics log) && length_gt (topics log) 2);
        cbn [bind readable]; [|reflexivity].
      now destruct (sliceable (index (topics log) 2)).
Qed.

End Skipping.

(** X7: a log is skipped exactly when a value an address is to be cut
    from has no [slice]: a truthy named slot, or the entry of the
    [topics] array read in its place, that is neither a string nor an
    array (so also a [null] or missing entry of a long enough array).
    The exception is a TypeError; nothing else in the log (block number,
    hash, payload) and nothing in the blocks can make a row go missing.
    Both scripts. *)
Theorem X7_skipped_logs :
  forall (bs : option (list Block)) (log : Log),
    extract_addresses log
    = (if skipped log then Throw TypeError
       else Ok (address_text (read_from (topic1 log) 1 (topics log)),
                address_text (read_from (topic2 log) 2 (topics log))))
    /\ threw (Transfers.decode_row bs log) = skipped log
    /\ threw (Transfers.decode bs log) = skipped log
    /\ (forall eventType,
          threw (MintBurn.decode_row eventType bs log) = skipped log
          /\ threw (MintBurn.decode eventType bs log) = skipped log).
Proof.
  intros bs log. pose proof (extract_addresses_view log) as V.
  split; [exact V|].
  unfold Transfers.decode, MintBurn.decode,
    Transfers.decode_row, MintBurn.decode_row.
  rewrite V. destruct (skipped log); cbn; auto.
Qed.

Section SliceBounds.

Lemma str_slice_last_suffix (n : nat) (pre suf : string) :
  String.length suf = n -> str_slice_last n (pre ++ suf) = suf.
Proof.
  intros L. unfold str_slice_last, slice_last.
  rewrite list_ascii_app, length_app, !list_ascii_length, L.
  replace (String.length pre + n - n) with (String.length pre) by lia.
  rewrite <- list_ascii_length, skipn_app, Nat.sub_diag, skipn_all.
  cbn [skipn app]. apply string_of_list_ascii_of_string.
Qed.

Lemma str_slice_last_short (n : nat) (t : string) :
  String.length t <= n -> str_slice_last n t = t.
Proof.
  intros L. unfold str_slice_last, slice_last.
  rewrite list_ascii_length.
  replace (String.length t - n) with 0 by lia.
  cbn [skipn]. apply string_of_list_ascii_of_string.
Qed.

Lemma extract_named_strings (log : Log) (t1 t2 : string) :
  t1 <> "" -> t2 <> "" ->
  topic1 log = JStr t1 -> topic2 log = JStr t2 ->
  extract_addresses log
  = Ok ("0x" ++ str_slice_last 40 t1, "0x" ++ str_slice_last 40 t2).
Proof.
  intros N1 N2 H1 H2. rewrite extract_addresses_view.
  unfold skipped, read_from. rewrite H1, H2.
  now rewrite !truthy_nonempty.
Qed.

Lemma nonempty_of_length (n : nat) (pre suf : string) :
  String.length suf = S n -> pre ++ suf <> "".
Proof.
  intros L E. apply (f_equal String.length) in E.
  rewrite string_length_app, L in E. cbn in E. lia.
Qed.

End SliceBounds.

(** X6: [slice(-40)] is all the checking a topic gets.  The address is
    ["0x"] and the last 40 characters of the topic string, whatever
    comes before them and whatever they are; a topic string of 40
    characters or fewer is copied whole behind the new ["0x"], its own
    prefix included. *)
Theorem X6_address_slice_bounds :
  forall log : Log,
    (forall pre1 suf1 pre2 suf2 : string,
       String.length suf1 = 40 -> String.length suf2 = 40 ->
       topic1 log = JStr (pre1 ++ suf1) ->
       topic2 log = JStr (pre2 ++ suf2) ->
       extract_addresses log = Ok ("0x" ++ suf1, "0x" ++ suf2))
    /\ (forall t1 t2 : string,
          t1 <> "" -> t2 <> "" ->
          String.length t1 <= 40 -> String.length t2 <= 40 ->
          topic1 log = JStr t1 -> topic2 log = JStr t2 ->
          extract_addresses log = Ok ("0x" ++ t1, "0x" ++ t2)).
Proof.
  intros log. split.
  - intros pre1 suf1 pre2 suf2 L1 L2 H1 H2.
    rewrite (extract_named_strings log _ _
               (nonempty_of_length 39 pre1 suf1 L1)
               (nonempty_of_length 39 pre2 suf2 L2) H1 H2).
    now rewrite !str_slice_last_suffix.
  - intros t1 t2 N1 N2 L1 L2 H1 H2.
    rewrite (extract_named_strings log t1 t2 N1 N2 H1 H2).
    now rewrite !str_slice_last_short.
Qed.

Lemma X6_address_slice_bounds_witness :
  extract_addresses log_named
  = Ok ("0x" ++ "aaaaaaaaaaaaaaaaaaaaaaaaaaaaaaaaaaaaaaaa",
        "0x" ++ "b1b1b1b1b1b1b1b1b1b1b1b1b1b1b1b1b1b1b1b1").
Proof.
  apply (proj1 (X6_address_slice_bounds log_named)
           "0x000000000000000000000000"
           "aaaaaaaaaaaaaaaaaaaaaaaaaaaaaaaaaaaaaaaa"
           "0x000000000000000000000000"
           "b1b1b1b1b1b1b1b1b1b1b1b1b1b1b1b1b1b1b1b1");
    reflexivity.
Defined.

(** ** The file over a run *)

Section AppendOnly.

Lemma contents_app (file : string) (a b : Fs.trace) :
  Fs.contents file (a ++ b)%list
  = fold_left (Fs.apply file) b (Fs.contents file a).
Proof. unfold Fs.contents. apply fold_left_app. Qed.

Lemma other_file_untouched (file other : string) (rows : list string) :
  other <> file ->
  forall now,
    fold_left (Fs.apply other) (map (Fs.appendFileSync file) rows) now = now.
Proof.
  intros H. induction rows as [|r rows IH]; intros now; [reflexivity|].
  cbn [map fold_left Fs.apply].
  replace (file =? other) with false; [apply IH|].
  symmetry. apply String.eqb_neq. congruence.
Qed.

End AppendOnly.

(** X8: the loop only ever adds to its file.  Over any sequence of
    batches the file's text afterwards is its text before followed by
    the lines of the logs that decoded, in order, and the text of every
    other file is what it was. *)
Theorem X8_file_is_append_only :
  forall (file : string)
         (decode : option (list Block) -> Log -> result string)
         (bs : list Response) (st : RunState),
    (forall old : string,
       Fs.contents file (fs st) = Some old ->
       Fs.contents file (fs (fold_left (step file decode) bs st))
       = Some (old ++ joined (flat_map (lines_of decode) bs)))
    /\ (forall other : string,
          other <> file ->
          Fs.contents other (fs (fold_left (step file decode) bs st))
          = Fs.contents other (fs st)).
Proof.
  intros file decode bs st. rewrite run_fs. split.
  - intros old H. rewrite contents_app, H. apply contents_appended.
  - intros other H. rewrite contents_app. now apply other_file_untouched.
Qed.

Lemma X8_file_is_append_only_witness :
  Fs.contents Transfers.CSV_FILENAME
    (fs (fold_left (step Transfers.CSV_FILENAME Transfers.decode)
           [batch_first; batch_high] Transfers.start))
  = Some (Transfers.CSV_HEADERS
          ++ joined (flat_map (lines_of Transfers.decode)
                       [batch_first; batch_high]))
  /\ Fs.contents MintBurn.CSV_FILENAME
       (fs (fold_left (step Transfers.CSV_FILENAME Transfers.decode)
              [batch_first; batch_high] Transfers.start))
     = Fs.contents MintBurn.CSV_FILENAME (fs Transfers.start).
Proof.
  split.
  - apply (proj1 (X8_file_is_append_only Transfers.CSV_FILENAME
                    Transfers.decode [batch_first; batch_high]
                    Transfers.start)).
    reflexivity.
  - apply (proj2 (X8_file_is_append_only Transfers.CSV_FILENAME
                    Transfers.decode [batch_first; batch_high]
                    Transfers.start)).
    discriminate.
Defined.

(** ** The cursor at the end *)

Section FinalCursor.

Lemma last_default (l : list Z) (d d' : Z) :
  l <> [] -> last l d = last l d'.
Proof.
  induction l as [|a l IH]; [congruence|]. intros _.
  destruct l as [|b l]; [reflexivity|].
  cbn [last] in *. apply IH. discriminate.
Qed.

Lemma last_cons (h : Z) (l : list Z) (d : Z) : last (h :: l) d = last l h.
Proof.
  destruct l as [|a l]; [reflexivity|].
  change (last (h :: a :: l) d) with (last (a :: l) d).
  apply last_default. discriminate.
Qed.

Lemma run_fromBlock (file : string)
  (decode : option (list Block) -> Log -> result string)
  (bs : list Response) :
  forall st,
    fromBlock (fold_left (step file decode) bs st)
    = last_hint (fromBlock st) bs.
Proof.
  unfold last_hint, hints.
  induction bs as [|res bs IH]; intros st; [reflexivity|].
  cbn [fold_left map filter]. rewrite IH, step_fromBlock.
  destruct (nextBlock res =? 0)%Z; cbn [negb]; [reflexivity|].
  now rewrite last_cons.
Qed.

End FinalCursor.

(** X9: however a run ends, the cursor is the last non-zero next-block
    hint among the batches it went through, and the starting block
    11203124 when no batch carried one; the logs and blocks of the
    batches have no part in it. *)
Theorem X9_cursor_is_last_hint :
  (forall (file : string)
          (decode : option (list Block) -> Log -> result string)
          (bs : list Response) (st : RunState),
     fromBlock (fold_left (step file decode) bs st)
     = last_hint (fromBlock st) bs)
  /\ (forall script : list recv,
        fromBlock (snd (Transfers.main script))
        = last_hint 11203124 (consumed script))
  /\ (forall (eventType : string) (script : list recv) (tr : Fs.trace),
        fromBlock (snd (MintBurn.processEvents eventType script tr))
        = last_hint 11203124 (consumed script)).
Proof.
  split; [|split].
  - intros. apply run_fromBlock.
  - intros script. unfold Transfers.main.
    rewrite loop_ending. cbn [snd]. now rewrite run_fromBlock.
  - intros ty script tr. unfold MintBurn.processEvents.
    rewrite loop_ending. cbn [snd]. now rewrite run_fromBlock.
Qed.

(** ** Runs that reach the tip *)

Section Tip.

Lemma consumed_before_null (bs : list Response) (rest : list recv) :
  consumed (map RecvRes bs ++ RecvNull :: rest) = bs
  /\ ending (map RecvRes bs ++ RecvNull :: rest) = Completed.
Proof.
  induction bs as [|res bs [IH1 IH2]]; cbn; [auto|]. now rewrite IH1.
Qed.

End Tip.

(** X10: when [recv] gives [null] the run is over: the answers after it
    are never asked for, the status is 0, the file holds the header and
    the rows of the batches received before, and the counter is the
    number of their logs.  In the mint/burn tracker the burn pass then
    runs on the same file, and the file holds the header, the mint rows
    and the burn rows. *)
Theorem X10_run_to_the_tip :
  (forall (bs : list Response) (rest : list recv),
     let run := Transfers.main (map RecvRes bs ++ RecvNull :: rest) in
     let rows := flat_map (lines_of Transfers.decode) bs in
     fst run = Completed
     /\ exit_status (fst run) = Some 0%Z
     /\ fs (snd run)
        = Fs.writeFileSync Transfers.CSV_FILENAME Transfers.CSV_HEADERS
          :: map (Fs.appendFileSync Transfers.CSV_FILENAME) rows
     /\ Fs.contents Transfers.CSV_FILENAME (fs (snd run))
        = Some (Transfers.CSV_HEADERS ++ joined rows)
     /\ totalEvents (snd run) = sum (map log_count bs))
  /\ (forall (mint_bs burn_bs : list Response)
             (mint_rest burn_rest : list recv),
        let r := MintBurn.main (map RecvRes mint_bs ++ RecvNull :: mint_rest)
                   (map RecvRes burn_bs ++ RecvNull :: burn_rest) in
        let rows :=
          (flat_map (lines_of (MintBurn.decode "mint")) mint_bs
           ++ flat_map (lines_of (MintBurn.decode "burn")) burn_bs)%list in
        MintBurn.ended r = Completed
        /\ exit_status (MintBurn.ended r) = Some 0%Z
        /\ MintBurn.calls r
           = Fs.writeFileSync MintBurn.CSV_FILENAME MintBurn.CSV_HEADERS
             :: map (Fs.appendFileSync MintBurn.CSV_FILENAME) rows
        /\ Fs.contents MintBurn.CSV_FILENAME (MintBurn.calls r)
           = Some (MintBurn.CSV_HEADERS ++ joined rows)
        /\ MintBurn.mintEvents r = sum (map log_count mint_bs)
        /\ MintBurn.burnEvents r = sum (map log_count burn_bs)).
Proof.
  split.
  - intros bs rest run rows. subst run rows.
    rewrite Transfers_main_run.
    destruct (consumed_before_null bs rest) as [-> ->].
    cbn [fst snd fs exit_status totalEvents]. repeat split.
    unfold Fs.contents. cbn [fold_left Fs.apply].
    rewrite String.eqb_refl. apply contents_appended.
  - intros mbs bbs mrest brest r rows. subst r rows.
    destruct (MintBurn_main_run (map RecvRes mbs ++ RecvNull :: mrest)
                (map RecvRes bbs ++ RecvNull :: brest))
      as (C & M & B & E).
    unfold second_pass in C, B.
    destruct (consumed_before_null mbs mrest) as [Hc He].
    destruct (consumed_before_null bbs brest) as [Hc' He'].
    rewrite Hc, He, Hc' in C. rewrite He, Hc' in B.
    rewrite He, He' in E. rewrite Hc in M.
    rewrite E, C, M, B. repeat split.
    unfold Fs.contents. cbn [fold_left Fs.apply].
    rewrite String.eqb_refl. apply contents_appended.
Qed.

(** ** The join with the blocks *)

Section Join.

(** The rows depend on the blocks through the block found only. *)
Lemma decode_row_same_block (bs bs' : option (list Block)) (log : Log) :
  find_block bs (or_empty (blockNumber log))
  = find_block bs' (or_empty (blockNumber log)) ->
  Transfers.decode_row bs log = Transfers.decode_row bs' log
  /\ (forall eventType,
        MintBurn.decode_row eventType bs log
        = MintBurn.decode_row eventType bs' log).
Proof.
  intros H. unfold Transfers.decode_row, MintBurn.decode_row.
  now rewrite H.
Qed.

Lemma strict_eq_distinct (a b : jsval) : a <> b -> strict_eq a b = false.
Proof.
  intros H. destruct (strict_eq a b) eqn:E; [|reflexivity].
  now apply strict_eq_true in E.
Qed.

Lemma find_block_mismatch (bs : list Block) (bn : jsval) :
  Forall (fun b => number b <> bn) bs -> find_block (Some bs) bn = None.
Proof.
  intros H. apply find_block_none. intros l b [= <-] Hin.
  apply strict_eq_distinct. rewrite Forall_forall in H. now apply H.
Qed.

End Join.

(** X11: the timestamp is the one of the first block of the batch with
    the log's block number.  Blocks before it with other numbers and all
    blocks after it, further records of the same block among them,
    change nothing: the row is the one that block alone would give. *)
Theorem X11_first_matching_block :
  forall (pre post : list Block) (b : Block) (log : Log),
    (forall b', In b' pre ->
       strict_eq (number b') (or_empty (blockNumber log)) = false) ->
    strict_eq (number b) (or_empty (blockNumber log)) = true ->
    find_block (Some (pre ++ b :: post)%list) (or_empty (blockNumber log))
    = Some b
    /\ Transfers.decode_row (Some (pre ++ b :: post)%list) log
       = Transfers.decode_row (Some [b]) log
    /\ (forall r, Transfers.decode_row (Some [b]) log = Ok r ->
          Transfers.row_timestamp r = ToString (or_empty (timestamp b)))
    /\ (forall eventType,
          MintBurn.decode_row eventType (Some (pre ++ b :: post)%list) log
          = MintBurn.decode_row eventType (Some [b]) log).
Proof.
  intros pre post b log Hpre Hb.
  assert (F : find_block (Some (pre ++ b :: post)%list)
                (or_empty (blockNumber log)) = Some b).
  { cbn [find_block]. now apply find_first. }
  assert (F1 : find_block (Some [b]) (or_empty (blockNumber log)) = Some b).
  { cbn [find_block]. now apply find_single. }
  destruct (decode_row_same_block (Some (pre ++ b :: post)%list) (Some [b]) log)
    as [T M]; [now rewrite F, F1|].
  split; [exact F|]. split; [exact T|]. split; [|exact M].
  intros r. unfold Transfers.decode_row. rewrite F1.
  destruct (extract_addresses log); cbn [bind]; [|discriminate].
  now intros [= <-].
Qed.

Lemma X11_first_matching_block_witness :
  Transfers.decode_row
    (Some ([block_131] ++ block_130 :: [block_130_late])%list) log_named
  = Transfers.decode_row (Some [block_130]) log_named.
Proof.
  refine (proj1 (proj2 (X11_first_matching_block [block_131]
                          [block_130_late] block_130 log_named _ _))).
  - intros b' [<- | []]. reflexivity.
  - reflexivity.
Defined.

(** X12: the lookup compares with [===], so a number and a string never
    match.  A log with a numeric block number finds no block when the
    blocks of the batch carry their numbers as strings, and the other
    way round; the row is written as if the batch had no blocks, with an
    empty timestamp. *)
Theorem X12_join_does_not_convert :
  forall (bs : list Block) (log : Log),
    (forall z : Z,
       z <> 0%Z -> blockNumber log = JNum z ->
       Forall (fun b => exists s, number b = JStr s) bs ->
       Transfers.decode_row (Some bs) log = Transfers.decode_row None log
       /\ (forall eventType,
             MintBurn.decode_row eventType (Some bs) log
             = MintBurn.decode_row eventType None log))
    /\ (forall s : string,
          blockNumber log = JStr s ->
          Forall (fun b => exists z, number b = JNum z) bs ->
          Transfers.decode_row (Some bs) log = Transfers.decode_row None log
          /\ (forall eventType,
                MintBurn.decode_row eventType (Some bs) log
                = MintBurn.decode_row eventType None log)).
Proof.
  intros bs log. split.
  - intros z Hz Hn Hbs. apply decode_row_same_block.
    cbn [find_block]. apply find_block_mismatch.
    rewrite Hn. unfold or_empty. cbn [truthy].
    apply Z.eqb_neq in Hz. rewrite Hz. cbn [negb].
    eapply Forall_impl; [|exact Hbs].
    intros b [s ->]. discriminate.
  - intros s Hn Hbs. apply decode_row_same_block.
    cbn [find_block]. apply find_block_mismatch.
    rewrite Hn.
    eapply Forall_impl; [|exact Hbs].
    intros b [z ->]. unfold or_empty. now destruct (truthy (JStr s)).
Qed.

Lemma X12_join_does_not_convert_witness :
  Transfers.decode_row (Some [block_130_text]) log_named
  = Transfers.decode_row None log_named.
Proof.
  refine (proj1 (proj1 (X12_join_does_not_convert [block_130_text] log_named)
                   11203130%Z _ eq_refl _)).
  - discriminate.
  - repeat constructor. now exists "11203130".
Defined.

(** X13: a log whose block number is missing, [null], 0 or empty is
    looked up as the empty string.  Unless a block carries the empty
    string as its number, no block is found, also when a record of block
    0 is in the batch, and the row has an empty block number and an
    empty timestamp. *)
Theorem X13_missing_block_number :
  forall (bs : list Block) (log : Log),
    truthy (blockNumber log) = false ->
    Forall (fun b => number b <> JStr "") bs ->
    Transfers.decode_row (Some bs) log = Transfers.decode_row None log
    /\ (forall r, Transfers.decode_row None log = Ok r ->
          Transfers.row_blockNumber r = ""
          /\ Transfers.row_timestamp r = "")
    /\ (forall eventType,
          MintBurn.decode_row eventType (Some bs) log
          = MintBurn.decode_row eventType None log
          /\ (forall r, MintBurn.decode_row eventType None log = Ok r ->
                MintBurn.row_blockNumber r = ""
                /\ MintBurn.row_timestamp r = "")).
Proof.
  intros bs log Hf Hbs.
  assert (E : or_empty (blockNumber log) = JStr "")
    by (unfold or_empty; now rewrite Hf).
  destruct (decode_row_same_block (Some bs) None log) as [T M].
  { rewrite E. cbn [find_block]. now apply find_block_mismatch. }
  split; [exact T|]. split.
  - intros r. unfold Transfers.decode_row. rewrite E.
    destruct (extract_addresses log); cbn [bind]; [|discriminate].
    intros [= <-]. split; reflexivity.
  - intros ty. split; [apply M|].
    intros r. unfold MintBurn.decode_row. rewrite E.
    destruct (extract_addresses log); cbn [bind]; [|discriminate].
    intros [= <-]. split; reflexivity.
Qed.

Lemma X13_missing_block_number_witness :
  Transfers.decode_row (Some [block_130; block_130_epoch]) log_unnumbered
  = Transfers.decode_row None log_unnumbered.
Proof.
  refine (proj1 (X13_missing_block_number [block_130; block_130_epoch]
                   log_unnumbered eq_refl _)).
  repeat constructor; discriminate.
Defined.

(** ** The first-log dump *)

Section Dump.

Lemma debug_output_printed (bs : list Response) : debug_output true bs = [].
Proof.
  induction bs as [|res bs IH]; [reflexivity|].
  cbn [debug_output]. unfold debug_first_log.
  destruct (res_logs res) as [[|log0 ls]|]; cbn [negb app]; exact IH.
Qed.

Lemma debug_output_no_logs (flag : bool) (pre rest : list Response) :
  forallb no_logs pre = true ->
  debug_output flag (pre ++ rest)%list = debug_output flag rest.
Proof.
  induction pre as [|res pre IH]; [reflexivity|].
  cbn [forallb]. intros H. apply andb_true_iff in H as [Hres Hpre].
  cbn [app debug_output]. unfold debug_first_log.
  unfold no_logs, log_count in Hres.
  destruct (res_logs res) as [[|log0 ls]|]; cbn [app];
    try (now apply IH).
  discriminate.
Qed.

End Dump.

(** X14: the first-log dump is printed at most once in a pass: for the
    first log of the first batch that holds a log, whatever comes after,
    and not at all when no batch holds a log.  The topics line is part
    of it only when that log has a truthy [topics]. *)
Theorem X14_first_log_dump :
  (forall bs : list Response,
     forallb no_logs bs = true -> debug_output false bs = [])
  /\ (forall (pre post : list Response) (res : Response)
             (log0 : Log) (ls : list Log),
        forallb no_logs pre = true ->
        res_logs res = Some (log0 :: ls) ->
        debug_output false (pre ++ res :: post)%list = dump log0)
  /\ (forall log0 : Log,
        In (TopicsArray (topics log0)) (dump log0)
        <-> truthy (topics log0) = true).
Proof.
  split; [|split].
  - intros bs H. rewrite <- (app_nil_r bs).
    now rewrite debug_output_no_logs.
  - intros pre post res log0 ls Hpre Hres.
    rewrite debug_output_no_logs by assumption.
    cbn [debug_output]. unfold debug_first_log. rewrite Hres. cbn [negb].
    now rewrite debug_output_printed, app_nil_r.
  - intros log0. unfold dump. destruct (truthy (topics log0)); cbn.
    + split; auto.
    + split; [|discriminate]. intros [H | [H | []]]; discriminate.
Qed.

Lemma X14_first_log_dump_witness :
  debug_output false ([batch_high] ++ batch_first :: [batch_first])%list
  = dump log_named.
Proof.
  apply (proj1 (proj2 X14_first_log_dump) [batch_high] [batch_first]
           batch_first log_named [log_throwing; log_mixed]);
    reflexivity.
Defined.
